(** * ct2binder: the binder report of a CardTrader collection

    A shallow embedding of [binder.py].  The script loads a YAML
    configuration, downloads the expansion table and the collection
    export, normalises the export with pandas, and prints one table per
    configured colour followed by a grand total.

    Modelling choices, all taken from the way the script is written:
    - HTTP is a [Server] answering three kinds of [request]; every request
      the script sends is appended to a log, so lookups can be counted.
    - [main] runs in a small state-and-exception monad [M]: the state holds
      the request log and what has been printed, an exception stops the
      run where it is raised.
    - A pandas frame is the list of its rows.  A key that a record does
      not carry becomes [None] (pandas' NaN); a key that is carried has a
      value of the type the API gives it (a JSON [null] under one of the
      three optional keys is not an input of the embedding).  A column
      exists when at least one record carries its key, and naming a
      column that does not exist raises [KeyError].
    - [sort_values] uses pandas' default [kind="quicksort"], whose order
      among equal keys numpy leaves open: the sort is an [Argsort]
      satisfying numpy's contract, and the theorems hold for every such
      sort.
    - The prices are [Z]; the sum of a column wraps around as the sum of
      an int64 column does.  A column in which some record has no price
      is float64 in pandas and is exact only up to 2^53: the theorems on
      sums carry the range as a hypothesis ([exact_range]).
    - [total_value] is a Python float: binary64, as [PrimFloat.float].
    - A printed table is kept as its rows and the numbers of its caption;
      [df_to_table], which lays a frame out in a [rich] table, is
      embedded on its own at the end of the definitions. *)

From Stdlib Require Import ZArith List String Ascii Bool Sorted Permutation Lia.
From Stdlib Require Import PrimFloat.
From Stdlib Require Uint63 FloatOps SpecFloat DecimalString.
From stdpp Require Import base gmap sorting.
Import ListNotations.
Open Scope Z_scope.

(** ** The colour enumeration *)

Inductive Color : Type :=
  | MULTICOLOR | WHITE | BLUE | BLACK | RED | GREEN | ARTIFACTS | LANDS.

Definition code (c : Color) : string :=
  match c with
  | MULTICOLOR => "M" | WHITE => "W" | BLUE => "U" | BLACK => "B"
  | RED => "R" | GREEN => "G" | ARTIFACTS => "C" | LANDS => "L"
  end%string.

Definition format (c : Color) : string :=
  match c with
  | MULTICOLOR => "dark_goldenrod" | WHITE => "wheat1" | BLUE => "blue"
  | BLACK => "purple" | RED => "red" | GREEN => "green"
  | ARTIFACTS => "orange4" | LANDS => "steel_blue"
  end%string.

(** [list(Color)]: the members in definition order. *)
Definition list_Color : list Color :=
  [MULTICOLOR; WHITE; BLUE; BLACK; RED; GREEN; ARTIFACTS; LANDS].

(** [color is cls.MULTICOLOR] *)
Definition is_MULTICOLOR (c : Color) : bool :=
  match c with MULTICOLOR => true | _ => false end.

(** [Color.all(exclude_multi)] *)
Definition Color_all (exclude_multi : bool) : list string :=
  map code
    (List.filter (fun color => negb (exclude_multi && is_MULTICOLOR color))
       list_Color).

(** [x in xs] for a list of strings. *)
Definition str_in (x : string) (xs : list string) : bool :=
  existsb (String.eqb x) xs.

(** ** Configuration *)

(** The dictionary read from [config.yaml]. *)
Record ConfigDict : Type := {
  yaml_ct_token : string;
  yaml_price_cents_threshold : Z;
  yaml_colors : list string
}.

Record Config : Type := {
  ct_token : string;
  price_cents_threshold : Z;
  colors : list Color
}.

Definition get_config (config_dict : ConfigDict) : Config :=
  {| ct_token := yaml_ct_token config_dict;
     price_cents_threshold := yaml_price_cents_threshold config_dict;
     colors :=
       List.filter (fun color => str_in (code color) (yaml_colors config_dict))
         list_Color |}.

(** ** The collection export *)

(** One record of the export, flattened as [pd.json_normalize] does: the
    keys of the nested [properties_hash] become columns of their own.  The
    keys of the price, the foil flag and the colours may be absent from a
    record: [None] stands for a record that does not carry the key, and
    [Some v] for a record that carries it with the value [v], of the type
    the API gives it.  The other four keys are always there. *)
Record RawRecord : Type := {
  raw_quantity : Z;
  raw_name_en : string;
  raw_blueprint_id : Z;
  raw_price_cents : option Z;
  raw_mtg_language : string;
  raw_mtg_foil : option bool;
  raw_mtg_card_colors : option string
}.

(** A cell of the [foil] column: a string, or NaN where the flag was
    absent. *)
Inductive cell : Type :=
  | Text (s : string)
  | NaN.

(** A row of [data_pd] once normalisation is over. *)
Record Row : Type := {
  index : nat;
  quantity : Z;
  name : string;
  blueprint_id : Z;
  price_cents : option Z;
  language : string;
  mtg_foil : option bool;
  foil : cell;
  mtg_card_colors : option string
}.

Inductive request : Type :=
  | GET_expansions
  | GET_collection
  | GET_blueprint (blueprint_id : Z).

Inductive exn : Type :=
  | KeyError (label : string)
  | KeyError_expansion (expansion_id : Z)
  | HTTPError (r : request).

Definition notna {A : Type} (x : option A) : bool :=
  match x with Some _ => true | None => false end.

(** A frame has a column when some record carries the key ([None] being
    a record without the key). *)
Definition has_column {A : Type} (key : RawRecord -> option A)
    (data : list RawRecord) : bool :=
  existsb (fun record => notna (key record)) data.

(** [pd.json_normalize(data)]: the records under a range index. *)
Definition json_normalize (data : list RawRecord) : list (nat * RawRecord) :=
  combine (seq 0 (length data)) data.

(** [l[indexer]]: the elements of [l] at the positions of [indexer]. *)
Definition take_at {A : Type} (l : list A) (indexer : list nat) : list A :=
  flat_map
    (fun i => match nth_error l i with Some x => [x] | None => [] end)
    indexer.

(** numpy's [argsort]: the result lists every position once, and reading
    the input in that order gives ascending values.  Nothing is promised
    about the order of equal values. *)
Record Argsort : Type := {
  argsort : list Z -> list nat;
  argsort_perm : forall l : list Z,
      Permutation (argsort l) (seq 0 (length l));
  argsort_sorted : forall l : list Z,
      StronglySorted Z.le (take_at l (argsort l))
}.



Definition price_key (r : nat * RawRecord) : Z :=
  match raw_price_cents (snd r) with Some p => p | None => 0 end.

(** [.sort_values("price_cents", ascending=False)], as pandas' [nargsort]
    does it: the rows with a price are reversed, ordered by an ascending
    argsort of their prices and reversed again; the rows without a price
    follow in their original order. *)
Definition sort_values (S : Argsort) (df : list (nat * RawRecord)) :
    list (nat * RawRecord) :=
  let non_nans :=
    rev (List.filter (fun r => notna (raw_price_cents (snd r))) df) in
  let nans :=
    List.filter (fun r => negb (notna (raw_price_cents (snd r)))) df in
  rev (take_at non_nans (argsort S (map price_key non_nans))) ++ nans.

(** [.dropna(subset=["properties_hash.mtg_card_colors"])] *)
Definition dropna (df : list (nat * RawRecord)) : list (nat * RawRecord) :=
  List.filter (fun r => notna (raw_mtg_card_colors (snd r))) df.

(** [str.upper] on a string of ASCII characters: the letters a to z
    become A to Z and nothing else changes.  (Python upper-cases other
    characters as Unicode prescribes; the statements on [upper] are made
    for ASCII strings, see [is_ascii].) *)
Definition upper_ascii (c : ascii) : ascii :=
  let n := nat_of_ascii c in
  if ((97 <=? n) && (n <=? 122))%nat then ascii_of_nat (n - 32) else c.

Fixpoint upper (s : string) : string :=
  match s with
  | EmptyString => EmptyString
  | String c s' => String (upper_ascii c) (upper s')
  end.

(** A string of ASCII characters only. *)
Fixpoint is_ascii (s : string) : bool :=
  match s with
  | EmptyString => true
  | String c s' => (nat_of_ascii c <? 128)%nat && is_ascii s'
  end.

(** [.replace([True, False], [":heavy_check_mark:", ""])]: a NaN is
    neither and stays. *)
Definition replace_foil (v : option bool) : cell :=
  match v with
  | Some true => Text ":heavy_check_mark:"
  | Some false => Text ""
  | None => NaN
  end.

(** [reset_index], the two renamings and the derived columns, row by
    row.  The [price] column, a formatted copy of [price_cents], is only
    shown and is left out. *)
Definition finish_row (r : nat * RawRecord) : Row :=
  {| index := fst r;
     quantity := raw_quantity (snd r);
     name := raw_name_en (snd r);
     blueprint_id := raw_blueprint_id (snd r);
     price_cents := raw_price_cents (snd r);
     language := raw_mtg_language (snd r);
     mtg_foil := raw_mtg_foil (snd r);
     foil := replace_foil (raw_mtg_foil (snd r));
     mtg_card_colors := option_map upper (raw_mtg_card_colors (snd r)) |}.

(** Lines 130 to 152 of [main]: from the JSON list to [data_pd]. *)
Definition normalize (S : Argsort) (data : list RawRecord) :
    exn + list Row :=
  let df := json_normalize data in
  if negb (has_column raw_price_cents data) then
    inl (KeyError "price_cents")
  else
    let df := sort_values S df in
    if negb (has_column raw_mtg_card_colors data) then
      inl (KeyError "properties_hash.mtg_card_colors")
    else
      let df := dropna df in
      if negb (has_column raw_mtg_foil data) then inl (KeyError "mtg_foil")
      else inr (map finish_row df).

(** ** The queries of the report loop *)

(** [`price_cents` >= @price_thresh]; a NaN compares false. *)
Definition price_ge (p : option Z) (price_thresh : Z) : bool :=
  match p with Some x => price_thresh <=? x | None => false end.

(** [`mtg_card_colors` == @color.code] *)
Definition colors_eq (c : option string) (code : string) : bool :=
  match c with Some s => String.eqb s code | None => false end.

(** [`mtg_card_colors` not in @color_codes] *)
Definition colors_not_in (c : option string) (codes : list string) : bool :=
  match c with Some s => negb (str_in s codes) | None => true end.

(** The mask of the query made for [color]. *)
Definition selects (color : Color) (price_thresh : Z) (r : Row) : bool :=
  if is_MULTICOLOR color then
    colors_not_in (mtg_card_colors r) (Color_all true)
    && price_ge (price_cents r) price_thresh
  else
    colors_eq (mtg_card_colors r) (code color)
    && price_ge (price_cents r) price_thresh.

Definition query (color : Color) (price_thresh : Z) (data_pd : list Row) :
    list Row :=
  List.filter (selects color price_thresh) data_pd.

(** The prices of the rows added up as integers, a NaN counting for
    nothing. *)
Definition cents (rows : list Row) : Z :=
  fold_right
    (fun r acc => match price_cents r with Some p => p + acc | None => acc end)
    0 rows.

(** What an int64 holds after additions that overflow: numpy wraps
    around modulo 2^64. *)
Definition int64_wrap (z : Z) : Z := (z + 2 ^ 63) mod 2 ^ 64 - 2 ^ 63.

(** [query["price_cents"].sum()]: pandas skips NaN and adds an int64
    column up modulo 2^64.  (A column in which some record has no price
    is float64; its sum is this one as long as the prices stay within
    [exact_range].) *)
Definition sum_price_cents (rows : list Row) : Z := int64_wrap (cents rows).



(** Every colours string of the export is ASCII. *)
Definition ascii_colours (data : list RawRecord) : bool :=
  forallb
    (fun record =>
       match raw_mtg_card_colors record with
       | Some colours => is_ascii colours
       | None => true
       end)
    data.

(** ** Expansions *)

Record Expansion : Type := {
  exp_id : Z;
  exp_name : string;
  exp_code : string;
  exp_game_id : Z
}.

(** The dictionary comprehension of [expansions_dict]: a later expansion
    with the same id replaces an earlier one. *)
Definition expansions_dict (expansions : list Expansion) (game_id : Z) :
    gmap Z (string * string) :=
  fold_left
    (fun d exp => <[exp_id exp := (exp_name exp, exp_code exp)]> d)
    (List.filter (fun exp => exp_game_id exp =? game_id) expansions)
    ∅.

(** ** The run: requests, printing and exceptions *)

(** What the CardTrader API answers; [None] is a response whose status
    makes [raise_for_status] raise.  The answer to a blueprint request
    depends on the blueprint alone: the server is taken not to change
    during a run. *)
Record Server : Type := {
  expansions_json : option (list Expansion);
  collection_json : option (list RawRecord);
  blueprint_json : Z -> option Z
}.

(** The table printed for one colour: the colour and threshold of its
    title, its rows with their expansion, and the two numbers of its
    caption (the caption shows the sum divided by 100). *)
Record Table : Type := {
  title_color : Color;
  title_thresh : Z;
  rows : list (Row * string);
  caption_items : nat;
  caption_cents : Z
}.

Inductive output : Type :=
  | Reading (items : nat)
  | Printed (table : Table)
  | Total (total_items : nat) (total_value : float).

(** Both lists grow at the end: they are in the order of the run. *)
Record state : Type := {
  requests : list request;
  console : list output
}.

Definition start : state := {| requests := []; console := [] |}.

Definition M (A : Type) : Type := state -> (exn + A) * state.

Definition ret {A : Type} (a : A) : M A := fun st => (inr a, st).

Definition bind {A B : Type} (m : M A) (k : A -> M B) : M B :=
  fun st =>
    match m st with
    | (inr a, st') => k a st'
    | (inl e, st') => (inl e, st')
    end.

Definition raise {A : Type} (e : exn) : M A := fun st => (inl e, st).

Notation "x <- m ;; k" := (bind m (fun x => k))
  (at level 100, m at next level, right associativity).
Notation "m ;; k" := (bind m (fun _ => k))
  (at level 100, right associativity).

Definition send (r : request) : M unit :=
  fun st =>
    (inr tt, {| requests := requests st ++ [r]; console := console st |}).

Definition print (o : output) : M unit :=
  fun st =>
    (inr tt, {| requests := requests st; console := console st ++ [o] |}).

(** [requests.get] followed by [raise_for_status] and [json()]. *)
Definition get {A : Type} (r : request) (answer : option A) : M A :=
  send r ;;
  match answer with
  | Some json => ret json
  | None => raise (HTTPError r)
  end.

Definition lift {A : Type} (x : exn + A) : M A :=
  match x with inl e => raise e | inr a => ret a end.

(** [get_expansion]: one request per call. *)
Definition get_expansion (server : Server)
    (expansions : gmap Z (string * string)) (blueprint_id : Z) : M string :=
  expansion_id <-
    get (GET_blueprint blueprint_id) (blueprint_json server blueprint_id) ;;
  match expansions !! expansion_id with
  | Some exp => ret (fst exp)
  | None => raise (KeyError_expansion expansion_id)
  end.

(** [series.apply(f)]: [f] on every element, in order. *)
Fixpoint apply {A B : Type} (f : A -> M B) (series : list A) : M (list B) :=
  match series with
  | [] => ret []
  | x :: series' =>
      y <- f x ;;
      ys <- apply f series' ;;
      ret (y :: ys)
  end.

(** The sum of an integer column as a [float], the way numpy converts
    an int64 before the division: the nearest binary64, ties to even. *)
Definition Z2float (z : Z) : float :=
  FloatOps.SF2Prim
    (SpecFloat.binary_normalize FloatOps.prec FloatOps.emax z 0 false).

(** The body of [for color in colors], on the two running totals. *)
Definition report_color (server : Server)
    (expansions : gmap Z (string * string)) (price_thresh : Z)
    (data_pd : list Row) (totals : nat * float) (color : Color) :
    M (nat * float) :=
  let query := query color price_thresh data_pd in
  expansion <- apply (get_expansion server expansions)
                 (map blueprint_id query) ;;
  let table :=
    {| title_color := color;
       title_thresh := price_thresh;
       rows := combine query expansion;
       caption_items := length query;
       caption_cents := sum_price_cents query |} in
  print (Printed table) ;;
  ret ((fst totals + length query)%nat,
       PrimFloat.add (snd totals)
         (PrimFloat.div (Z2float (sum_price_cents query)) 100%float)).

Fixpoint for_each {A B : Type} (body : B -> A -> M B) (acc : B)
    (items : list A) : M B :=
  match items with
  | [] => ret acc
  | x :: items' => acc' <- body acc x ;; for_each body acc' items'
  end.

Definition main (S : Argsort) (server : Server) (config_dict : ConfigDict) :
    M unit :=
  let config := get_config config_dict in
  let price_thresh := price_cents_threshold config in
  let colors := colors config in
  expansions <- get GET_expansions (expansions_json server) ;;
  let exp_dict := expansions_dict expansions 1 in
  data <- get GET_collection (collection_json server) ;;
  print (Reading (length data)) ;;
  data_pd <- lift (normalize S data) ;;
  totals <- for_each (report_color server exp_dict price_thresh data_pd)
              (0%nat, 0%float) colors ;;
  print (Total (fst totals) (snd totals)).

(** The tables a run has printed, and the blueprints it has looked up,
    both in the order of the run. *)
Definition tables (st : state) : list Table :=
  flat_map (fun o => match o with Printed t => [t] | _ => [] end)
    (console st).

Definition lookups (st : state) : list Z :=
  flat_map (fun r => match r with GET_blueprint id => [id] | _ => [] end)
    (requests st).

(** ** What a finished run has printed

    The relations below are used to state what [main] has done; they
    read off the loop body. *)

(** [resolved server expansions re]: the expansion shown in a row is the
    name the blueprint request and the expansion table give for the
    row's blueprint. *)
Definition resolved (server : Server) (expansions : gmap Z (string * string))
    (re : Row * string) : Prop :=
  exists (expansion_id : Z) (exp : string * string),
    blueprint_json server (blueprint_id (fst re)) = Some expansion_id
    /\ expansions !! expansion_id = Some exp
    /\ snd re = fst exp.

(** [table_of ... color table]: [table] is what the loop body prints for
    [color]. *)
Definition table_of (server : Server) (expansions : gmap Z (string * string))
    (price_thresh : Z) (data_pd : list Row) (color : Color) (table : Table) :
    Prop :=
  title_color table = color
  /\ title_thresh table = price_thresh
  /\ map fst (rows table) = query color price_thresh data_pd
  /\ caption_items table = length (rows table)
  /\ caption_cents table = sum_price_cents (map fst (rows table))
  /\ Forall (resolved server expansions) (rows table).

(** [fails server expansions id e]: looking blueprint [id] up raises
    [e], either because the request fails or because the expansion it
    names is not in the table. *)
Definition fails (server : Server) (expansions : gmap Z (string * string))
    (id : Z) (e : exn) : Prop :=
  (blueprint_json server id = None /\ e = HTTPError (GET_blueprint id))
  \/ exists expansion_id : Z,
       blueprint_json server id = Some expansion_id
       /\ expansions !! expansion_id = None
       /\ e = KeyError_expansion expansion_id.

(** [resolves server expansions id]: looking blueprint [id] up returns a
    name. *)
Definition resolves (server : Server) (expansions : gmap Z (string * string))
    (id : Z) : Prop :=
  exists (expansion_id : Z) (exp : string * string),
    blueprint_json server id = Some expansion_id
    /\ expansions !! expansion_id = Some exp.

(** The blueprints of the rows of a list of tables, table after table. *)
Definition blueprints_of (ts : list Table) : list Z :=
  concat (map (fun t => map (fun re => blueprint_id (fst re)) (rows t)) ts).

(** The two totals as the loop accumulates them over the tables. *)
Definition items_after (total_items : nat) (ts : list Table) : nat :=
  fold_left (fun n t => (n + caption_items t)%nat) ts total_items.

Definition value_after (total_value : float) (ts : list Table) : float :=
  fold_left
    (fun v t =>
       PrimFloat.add v (PrimFloat.div (Z2float (caption_cents t)) 100%float))
    ts total_value.

(** ** Orders on the rows of a frame *)




(** The one category a row is reported under when every colour is
    enabled: the member other than multicolour whose code is the row's
    colours, and multicolour when there is none. *)
Definition category_of (r : Row) : Color :=
  match
    List.find
      (fun color =>
         negb (is_MULTICOLOR color)
         && colors_eq (mtg_card_colors r) (code color))
      list_Color
  with
  | Some color => color
  | None => MULTICOLOR
  end.

(** The last line of a run that completes: the two grand totals. *)
Definition grand_total (st : state) : option (nat * float) :=
  match List.last (console st) (Reading 0) with
  | Total total_items total_value => Some (total_items, total_value)
  | _ => None
  end.

(** ** A stable argsort

    [stable_argsort] sorts the values paired with their positions by a
    merge sort and breaks ties by ascending position, as numpy's
    [kind="stable"] does.  It is the sort the examples are run with. *)

Definition keyed (l : list Z) : list (Z * nat) :=
  combine l (seq 0 (length l)).

Definition ties_ascending (a b : Z * nat) : Prop :=
  fst a < fst b \/ (fst a = fst b /\ (snd a <= snd b)%nat).

#[global] Instance ties_ascending_dec : RelDecision ties_ascending.
Proof. intros a b. unfold ties_ascending. apply _. Defined.

Definition argsort_by (R : relation (Z * nat)) `{!RelDecision R}
    (l : list Z) : list nat :=
  map snd (merge_sort R (keyed l)).

(** ** A small collection for the examples *)

Definition card (blueprint : Z) (price : option Z) (is_foil : option bool)
    (colours : option string) : RawRecord :=
  {| raw_quantity := 1;
     raw_name_en := "Llanowar Elves";
     raw_blueprint_id := blueprint;
     raw_price_cents := price;
     raw_mtg_language := "en";
     raw_mtg_foil := is_foil;
     raw_mtg_card_colors := colours |}.

(** A server that knows one expansion and files every blueprint under
    it. *)
Definition cardtrader (data : list RawRecord) : Server :=
  {| expansions_json :=
       Some [{| exp_id := 7; exp_name := "Alpha"; exp_code := "lea";
                exp_game_id := 1 |}];
     collection_json := Some data;
     blueprint_json := fun _ => Some 7 |}.

Definition config_yaml (price_thresh : Z) (codes : list string) : ConfigDict :=
  {| yaml_ct_token := "token";
     yaml_price_cents_threshold := price_thresh;
     yaml_colors := codes |}.


(** Four cards, one white and three blue, and a server on which the
    request for blueprint 3 fails. *)
Definition four_cards : list RawRecord :=
  [card 1 (Some 500) (Some false) (Some "W"%string);
   card 2 (Some 400) (Some false) (Some "U"%string);
   card 3 (Some 300) (Some false) (Some "U"%string);
   card 4 (Some 200) (Some false) (Some "U"%string)].

Definition one_expansion : list Expansion :=
  [{| exp_id := 7; exp_name := "Alpha"; exp_code := "lea";
      exp_game_id := 1 |}].

Definition flaky_cardtrader : Server :=
  {| expansions_json := Some one_expansion;
     collection_json := Some four_cards;
     blueprint_json := fun id => if id =? 3 then None else Some 7 |}.



(** The state a run ends in. *)
Definition final (run : (exn + unit) * state) : state := snd run.

(** The printed tables, each as its colour and the index labels of its
    rows. *)
Definition rows_by_index (st : state) : list (Color * list nat) :=
  map (fun t => (title_color t, map (fun re => index (fst re)) (rows t)))
    (tables st).

(** ** Rendering a frame into a table

    [df_to_table] only calls [add_column] and [add_row] on the table it
    is given: a [rich] table is kept as the calls made on it, in order.
    The frame is its column labels and its rows of values; [str] is
    Python's [str] on the values. *)

Record Column : Type := {
  header : string;
  style : option string;
  justify : string
}.

Inductive table_call : Type :=
  | add_column (column : Column)
  | add_row (cells : list string).

Definition RichTable : Type := list table_call.

Record DataFrame (V : Type) : Type := {
  df_columns : list string;
  df_values : list (list V)
}.

Arguments df_columns {V} _.
Arguments df_values {V} _.

(** How a call of [df_to_table] ends. *)
Inductive ending : Type :=
  | Returned
  | IndexError.

(** [str(index)] for a row counter. *)
Definition str_nat (n : nat) : string :=
  DecimalString.NilZero.string_of_uint (Nat.to_uint n).

(** [formats[i] if formats else (None, "left")]: an absent or empty list
    gives the default; [None] stands for the index out of range. *)
Definition format_at (formats : option (list (option string * string)))
    (i : nat) : option (option string * string) :=
  match formats with
  | None | Some [] => Some (None, "left"%string)
  | Some fs => nth_error fs i
  end.

(** The loop over [enumerate(pandas_dataframe.columns)]. *)
Fixpoint add_columns (formats : option (list (option string * string)))
    (i : nat) (columns : list string) (rich_table : RichTable) :
    ending * RichTable :=
  match columns with
  | [] => (Returned, rich_table)
  | column :: columns' =>
      match format_at formats i with
      | Some f =>
          add_columns formats (S i) columns'
            (rich_table
               ++ [add_column
                     {| header := column; style := fst f; justify := snd f |}])
      | None => (IndexError, rich_table)
      end
  end.

(** The cells of the row at position [i]. *)
Definition row_cells {V : Type} (str : V -> string) (show_index : bool)
    (i : nat) (value_list : list V) : list string :=
  (if show_index then [str_nat i] else []) ++ map str value_list.

(** The loop over [enumerate(pandas_dataframe.values.tolist())]. *)
Fixpoint add_rows {V : Type} (str : V -> string) (show_index : bool)
    (i : nat) (values : list (list V)) (rich_table : RichTable) : RichTable :=
  match values with
  | [] => rich_table
  | value_list :: values' =>
      add_rows str show_index (S i) values'
        (rich_table ++ [add_row (row_cells str show_index i value_list)])
  end.

(** [str(index_name) if index_name else ""] *)
Definition index_header (index_name : option string) : string :=
  match index_name with
  | Some (String c s) => String c s
  | Some EmptyString | None => ""%string
  end.

Definition df_to_table {V : Type} (str : V -> string)
    (pandas_dataframe : DataFrame V) (rich_table : RichTable)
    (show_index : bool) (index_name : option string)
    (formats : option (list (option string * string))) :
    ending * RichTable :=
  let rich_table :=
    if show_index then
      rich_table
        ++ [add_column
              {| header := index_header index_name; style := None;
                 justify := "left" |}]
    else rich_table in
  match add_columns formats 0 (df_columns pandas_dataframe) rich_table with
  | (Returned, rich_table) =>
      (Returned,
       add_rows str show_index 0 (df_values pandas_dataframe) rich_table)
  | (IndexError, rich_table) => (IndexError, rich_table)
  end.

(** The [columns] dictionary of [main]: its keys select the columns of
    the query, its values are the formats. *)
Definition main_columns : list (string * (option string * string)) :=
  [("quantity", (None, "right")); ("name", (None, "left"));
   ("expansion", (None, "left")); ("price", (None, "right"));
   ("language", (None, "center")); ("foil", (None, "center"))]%string.

(** The columns and the rows a table has received. *)
Definition columns_of (t : RichTable) : list Column :=
  flat_map (fun c => match c with add_column col => [col] | _ => [] end) t.

Definition rows_of (t : RichTable) : list (list string) :=
  flat_map (fun c => match c with add_row cells => [cells] | _ => [] end) t.

(** ** Basic facts about the enumeration *)

Lemma str_in_In (x : string) (xs : list string) :
  str_in x xs = true <-> In x xs.
Proof.
  unfold str_in. rewrite existsb_exists. split.
  - intros [y [Hy Heq]]. apply String.eqb_eq in Heq. now subst.
  - intros H. exists x. split; [assumption | apply String.eqb_refl].
Qed.

Lemma list_Color_complete (c : Color) : In c list_Color.
Proof. destruct c; simpl; tauto. Qed.

Lemma list_Color_NoDup : List.NoDup list_Color.
Proof.
  unfold list_Color.
  repeat (constructor; [simpl; intuition discriminate |]).
  constructor.
Qed.

Lemma code_inj (c1 c2 : Color) : code c1 = code c2 -> c1 = c2.
Proof. destruct c1, c2; simpl; intros H; try reflexivity; discriminate H. Qed.

(** ** Configuration loading *)

(** C10: loading a configuration never fails, whatever codes its colour
    list holds; the loaded colours are exactly the members of the
    enumeration whose code occurs in the list, each once, and a code that
    belongs to no member changes nothing. *)
Theorem get_config_ignores_unknown_codes (config_dict : ConfigDict) :
  let config := get_config config_dict in
  (forall color : Color,
      In color (colors config) <-> In (code color) (yaml_colors config_dict))
  /\ List.NoDup (colors config)
  /\ (forall unknown : string,
        (forall color : Color, code color <> unknown) ->
        colors
          (get_config
             {| yaml_ct_token := yaml_ct_token config_dict;
                yaml_price_cents_threshold :=
                  yaml_price_cents_threshold config_dict;
                yaml_colors := unknown :: yaml_colors config_dict |})
        = colors config)
  /\ ct_token config = yaml_ct_token config_dict
  /\ price_cents_threshold config = yaml_price_cents_threshold config_dict.
Proof.
  unfold get_config.
  cbn [colors ct_token price_cents_threshold yaml_colors].
  repeat split.
  - intros H. apply filter_In in H. destruct H as [_ H].
    now apply str_in_In.
  - intros H. apply filter_In. split; [apply list_Color_complete |].
    now apply str_in_In.
  - apply List.NoDup_filter, list_Color_NoDup.
  - intros unknown Hunknown. apply filter_ext. intros color.
    unfold str_in. cbn [existsb].
    destruct (String.eqb_spec (code color) unknown) as [Heq | Hne].
    + now destruct (Hunknown color).
    + reflexivity.
Qed.

(** ** Reading a list at a list of positions *)

Lemma take_at_app {A : Type} (l : list A) (p q : list nat) :
  take_at l (p ++ q) = take_at l p ++ take_at l q.
Proof. unfold take_at. apply flat_map_app. Qed.

Lemma take_at_seq {A : Type} (pre l : list A) :
  take_at (pre ++ l) (seq (length pre) (length l)) = l.
Proof.
  revert pre. induction l as [| x l IH]; intros pre; [reflexivity |].
  cbn [length seq take_at flat_map].
  rewrite nth_error_app2 by lia. rewrite Nat.sub_diag. cbn [nth_error app].
  f_equal.
  specialize (IH (pre ++ [x])).
  rewrite <- app_assoc, length_app in IH. cbn [length app] in IH.
  rewrite Nat.add_1_r in IH. exact IH.
Qed.

Lemma take_at_all {A : Type} (l : list A) : take_at l (seq 0 (length l)) = l.
Proof. exact (take_at_seq [] l). Qed.

Lemma take_at_Permutation {A : Type} (l : list A) (p : list nat) :
  Permutation p (seq 0 (length l)) -> Permutation (take_at l p) l.
Proof.
  intros Hp. rewrite <- (take_at_all l) at 2.
  unfold take_at. now apply Permutation_flat_map.
Qed.





(** ** Sortedness under maps, reversal and filtering *)

Lemma StronglySorted_map_in {A B : Type} (R : A -> A -> Prop)
    (R' : B -> B -> Prop) (f : A -> B) (l : list A) :
  (forall a b, In a l -> In b l -> R a b -> R' (f a) (f b)) ->
  StronglySorted R l -> StronglySorted R' (map f l).
Proof.
  intros HR Hl. induction Hl as [| a l Hl IH Ha]; [constructor |].
  cbn [map]. constructor.
  - apply IH. intros x y Hx Hy. apply HR; now right.
  - apply List.Forall_forall. intros y Hy.
    apply in_map_iff in Hy. destruct Hy as [b [<- Hb]].
    apply HR; [now left | now right |].
    rewrite List.Forall_forall in Ha. now apply Ha.
Qed.








Lemma filter_split_Permutation {A : Type} (f : A -> bool) (l : list A) :
  Permutation (List.filter f l ++ List.filter (fun x => negb (f x)) l) l.
Proof.
  induction l as [| x l IH]; [constructor |].
  cbn [List.filter]. destruct (f x); cbn [negb app].
  - now constructor.
  - symmetry. apply Permutation_cons_app. now symmetry.
Qed.


(** ** The stable argsort meets numpy's contract *)

Lemma keyed_snd_from (l : list Z) (s : nat) :
  map snd (combine l (seq s (length l))) = seq s (length l).
Proof.
  revert s. induction l as [| x l IH]; intros s; [reflexivity |].
  cbn [length seq combine map snd]. now rewrite IH.
Qed.

Lemma keyed_snd (l : list Z) : map snd (keyed l) = seq 0 (length l).
Proof. apply keyed_snd_from. Qed.

Lemma keyed_lookup_from (l : list Z) (s : nat) (a : Z * nat) :
  In a (combine l (seq s (length l))) ->
  (s <= snd a)%nat /\ nth_error l (snd a - s) = Some (fst a).
Proof.
  revert s. induction l as [| x l IH]; intros s Ha; [destruct Ha |].
  cbn [length seq combine] in Ha. destruct Ha as [<- | Ha].
  - cbn [fst snd]. rewrite Nat.sub_diag. split; [lia | reflexivity].
  - apply IH in Ha. destruct Ha as [Hle Hnth]. split; [lia |].
    replace (snd a - s)%nat with (S (snd a - S s)) by lia. exact Hnth.
Qed.

Lemma keyed_lookup (l : list Z) (a : Z * nat) :
  In a (keyed l) -> nth_error l (snd a) = Some (fst a).
Proof.
  intros Ha. apply keyed_lookup_from in Ha.
  rewrite Nat.sub_0_r in Ha. apply Ha.
Qed.

Lemma take_at_keys (l : list Z) (ks : list (Z * nat)) :
  (forall a, In a ks -> nth_error l (snd a) = Some (fst a)) ->
  take_at l (map snd ks) = map fst ks.
Proof.
  induction ks as [| a ks IH]; intros Hks; [reflexivity |].
  cbn [map]. change (take_at l (snd a :: map snd ks))
    with ((match nth_error l (snd a) with Some x => [x] | None => [] end)
            ++ take_at l (map snd ks)).
  rewrite (Hks a) by now left.
  rewrite IH by (intros b Hb; apply Hks; now right). reflexivity.
Qed.

Section ArgsortBy.
Context (R : relation (Z * nat)) `{!RelDecision R}.
Context `{!Transitive R, !base.Total R}.
Hypothesis R_fst : forall a b, R a b -> fst a <= fst b.

Lemma argsort_by_perm (l : list Z) :
  Permutation (argsort_by R l) (seq 0 (length l)).
Proof.
  unfold argsort_by. rewrite <- keyed_snd.
  apply Permutation_map, merge_sort_Permutation.
Qed.

Lemma argsort_by_keys (l : list Z) (a : Z * nat) :
  In a (merge_sort R (keyed l)) -> nth_error l (snd a) = Some (fst a).
Proof.
  intros Ha. apply keyed_lookup.
  eapply Permutation_in; [apply (merge_sort_Permutation R) | exact Ha].
Qed.

Lemma argsort_by_sorted (l : list Z) :
  StronglySorted Z.le (take_at l (argsort_by R l)).
Proof.
  unfold argsort_by.
  rewrite take_at_keys by apply argsort_by_keys.
  apply (StronglySorted_map_in R); [auto |].
  now apply StronglySorted_merge_sort.
Qed.
End ArgsortBy.

#[global] Instance ties_ascending_trans : Transitive ties_ascending.
Proof. intros a b c. unfold ties_ascending. lia. Qed.

#[global] Instance ties_ascending_total : base.Total ties_ascending.
Proof. intros a b. unfold ties_ascending. lia. Qed.

Definition stable_argsort : Argsort :=
  {| argsort := argsort_by ties_ascending;
     argsort_perm := argsort_by_perm ties_ascending;
     argsort_sorted :=
       argsort_by_sorted ties_ascending
         (fun a b H => ltac:(unfold ties_ascending in H; lia)) |}.


(** ** Inversion of the monadic steps *)

Lemma bind_inr {A B : Type} (m : M A) (k : A -> M B) (st st' : state) (b : B) :
  bind m k st = (inr b, st') ->
  exists (a : A) (st1 : state), m st = (inr a, st1) /\ k a st1 = (inr b, st').
Proof.
  unfold bind. destruct (m st) as [[e | a] st1]; intros H.
  - discriminate H.
  - now exists a, st1.
Qed.

Lemma ret_inr {A : Type} (a b : A) (st st' : state) :
  ret a st = (inr b, st') -> b = a /\ st' = st.
Proof. unfold ret. intros H. injection H as -> ->. now split. Qed.

Lemma get_inr {A : Type} (r : request) (answer : option A) (st st' : state)
    (a : A) :
  get r answer st = (inr a, st') ->
  answer = Some a
  /\ st' = {| requests := requests st ++ [r]; console := console st |}.
Proof.
  unfold get, bind, send. destruct answer as [json |]; cbn.
  - intros H. injection H as -> <-. now split.
  - intros H. discriminate H.
Qed.

Lemma print_inr (o : output) (st st' : state) (u : unit) :
  print o st = (inr u, st') ->
  st' = {| requests := requests st; console := console st ++ [o] |}.
Proof. unfold print. intros H. now injection H as _ <-. Qed.

Lemma lift_inr {A : Type} (x : exn + A) (st st' : state) (a : A) :
  lift x st = (inr a, st') -> x = inr a /\ st' = st.
Proof.
  destruct x as [e | a0]; cbn; intros H.
  - discriminate H.
  - injection H as -> ->. now split.
Qed.

Lemma get_expansion_inr (server : Server)
    (expansions : gmap Z (string * string)) (id : Z) (st st' : state)
    (shown : string) :
  get_expansion server expansions id st = (inr shown, st') ->
  st' = {| requests := requests st ++ [GET_blueprint id];
           console := console st |}
  /\ exists (expansion_id : Z) (exp : string * string),
       blueprint_json server id = Some expansion_id
       /\ expansions !! expansion_id = Some exp
       /\ shown = fst exp.
Proof.
  unfold get_expansion. intros H.
  apply bind_inr in H. destruct H as [eid [st1 [Hget Hk]]].
  apply get_inr in Hget. destruct Hget as [Hans ->].
  destruct (expansions !! eid) as [exp |] eqn:Hexp.
  - apply ret_inr in Hk. destruct Hk as [-> ->].
    split; [reflexivity |]. now exists eid, exp.
  - discriminate Hk.
Qed.

Lemma apply_get_expansion_inr (server : Server)
    (expansions : gmap Z (string * string)) (query : list Row)
    (st st' : state) (expansion : list string) :
  apply (get_expansion server expansions) (map blueprint_id query) st
    = (inr expansion, st') ->
  st' = {| requests :=
             requests st ++ map GET_blueprint (map blueprint_id query);
           console := console st |}
  /\ map fst (combine query expansion) = query
  /\ Forall (resolved server expansions) (combine query expansion).
Proof.
  revert st expansion.
  induction query as [| r query IH]; intros st expansion H.
  - cbn in H. apply ret_inr in H. destruct H as [-> ->].
    cbn. rewrite app_nil_r. destruct st. repeat split. constructor.
  - cbn [map apply] in H.
    apply bind_inr in H. destruct H as [shown [st1 [Hone H]]].
    apply bind_inr in H. destruct H as [ys [st2 [Hrest H]]].
    apply ret_inr in H. destruct H as [-> ->].
    apply get_expansion_inr in Hone. destruct Hone as [-> Hres].
    apply IH in Hrest. destruct Hrest as [-> [Hfst Hall]].
    cbn [requests console map combine]. rewrite <- app_assoc.
    repeat split.
    + cbn [fst]. now rewrite Hfst.
    + constructor; [exact Hres | exact Hall].
Qed.

Lemma report_color_inr (server : Server)
    (expansions : gmap Z (string * string)) (price_thresh : Z)
    (data_pd : list Row) (totals totals' : nat * float) (color : Color)
    (st st' : state) :
  report_color server expansions price_thresh data_pd totals color st
    = (inr totals', st') ->
  exists table : Table,
    table_of server expansions price_thresh data_pd color table
    /\ st' = {| requests :=
                  requests st ++ map GET_blueprint (blueprints_of [table]);
                console := console st ++ [Printed table] |}
    /\ totals' = (items_after (fst totals) [table],
                  value_after (snd totals) [table]).
Proof.
  unfold report_color. intros H.
  apply bind_inr in H. destruct H as [expansion [st1 [Happly H]]].
  apply bind_inr in H. destruct H as [u [st2 [Hprint H]]].
  apply ret_inr in H. destruct H as [-> ->].
  apply print_inr in Hprint. subst st2.
  apply apply_get_expansion_inr in Happly.
  destruct Happly as [-> [Hfst Hall]].
  exists {| title_color := color;
            title_thresh := price_thresh;
            rows := combine (query color price_thresh data_pd) expansion;
            caption_items := length (query color price_thresh data_pd);
            caption_cents :=
              sum_price_cents (query color price_thresh data_pd) |}.
  split; [| split].
  - unfold table_of. cbn [title_color title_thresh rows caption_items
      caption_cents]. rewrite Hfst.
    repeat split; try reflexivity; try assumption.
    rewrite <- Hfst at 1. now rewrite length_map.
  - unfold blueprints_of. cbn [map concat rows requests console].
    rewrite app_nil_r, <- (map_map fst blueprint_id), Hfst. reflexivity.
  - unfold items_after, value_after.
    cbn [fold_left caption_items caption_cents]. reflexivity.
Qed.

Lemma for_each_report_color_inr (server : Server)
    (expansions : gmap Z (string * string)) (price_thresh : Z)
    (data_pd : list Row) (colors : list Color) (totals totals' : nat * float)
    (st st' : state) :
  for_each (report_color server expansions price_thresh data_pd) totals
    colors st = (inr totals', st') ->
  exists ts : list Table,
    Forall2 (table_of server expansions price_thresh data_pd) colors ts
    /\ st' = {| requests :=
                  requests st ++ map GET_blueprint (blueprints_of ts);
                console := console st ++ map Printed ts |}
    /\ totals' = (items_after (fst totals) ts, value_after (snd totals) ts).
Proof.
  revert totals st.
  induction colors as [| color colors IH]; intros totals st H.
  - cbn in H. apply ret_inr in H. destruct H as [-> ->].
    exists []. cbn. rewrite !app_nil_r. destruct st, totals.
    repeat split. constructor.
  - cbn [for_each] in H.
    apply bind_inr in H. destruct H as [totals1 [st1 [Hbody H]]].
    apply report_color_inr in Hbody.
    destruct Hbody as [table [Htable [-> ->]]].
    apply IH in H. destruct H as [ts [Hts [-> ->]]].
    exists (table :: ts). split; [| split].
    + constructor; assumption.
    + cbn [requests console map]. unfold blueprints_of.
      cbn [map concat]. rewrite app_nil_r, map_app, <- !app_assoc.
      reflexivity.
    + reflexivity.
Qed.

(** Everything a successful run of [main] has done. *)
Lemma main_inr (S : Argsort) (server : Server) (config_dict : ConfigDict)
    (st : state) :
  main S server config_dict start = (inr tt, st) ->
  exists (expansions : list Expansion) (data : list RawRecord)
         (data_pd : list Row) (ts : list Table),
    expansions_json server = Some expansions
    /\ collection_json server = Some data
    /\ normalize S data = inr data_pd
    /\ Forall2
         (table_of server (expansions_dict expansions 1)
            (yaml_price_cents_threshold config_dict) data_pd)
         (colors (get_config config_dict)) ts
    /\ requests st
       = GET_expansions :: GET_collection
           :: map GET_blueprint (blueprints_of ts)
    /\ console st
       = Reading (length data) :: map Printed ts
           ++ [Total (items_after 0 ts) (value_after 0%float ts)].
Proof.
  unfold main. intros H.
  apply bind_inr in H. destruct H as [expansions [st1 [Hexp H]]].
  apply get_inr in Hexp. destruct Hexp as [Hexp ->].
  apply bind_inr in H. destruct H as [data [st2 [Hdata H]]].
  apply get_inr in Hdata. destruct Hdata as [Hdata ->].
  apply bind_inr in H. destruct H as [u [st3 [Hprint H]]].
  apply print_inr in Hprint. subst st3.
  apply bind_inr in H. destruct H as [data_pd [st4 [Hnorm H]]].
  apply lift_inr in Hnorm. destruct Hnorm as [Hnorm ->].
  apply bind_inr in H. destruct H as [totals [st5 [Hloop H]]].
  apply for_each_report_color_inr in Hloop.
  destruct Hloop as [ts [Hts [-> ->]]].
  apply print_inr in H. subst st.
  exists expansions, data, data_pd, ts.
  cbn [requests console start app fst snd price_cents_threshold get_config]
    in *.
  repeat split; assumption.
Qed.

Lemma tables_printed (ts : list Table) (o : output) :
  (forall t, o <> Printed t) ->
  flat_map (fun o => match o with Printed t => [t] | _ => [] end)
    (map Printed ts ++ [o]) = ts.
Proof.
  intros Ho. rewrite flat_map_app. cbn [flat_map].
  replace (match o with Printed t => [t] | _ => [] end) with (@nil Table)
    by (destruct o; try reflexivity; now destruct (Ho table)).
  rewrite !app_nil_r.
  induction ts as [| t ts IH]; [reflexivity |].
  cbn [map flat_map app]. now rewrite IH.
Qed.

Lemma lookups_blueprints (ids : list Z) :
  flat_map (fun r => match r with GET_blueprint id => [id] | _ => [] end)
    (map GET_blueprint ids) = ids.
Proof.
  induction ids as [| id ids IH]; [reflexivity |].
  cbn [map flat_map app]. now rewrite IH.
Qed.

Lemma main_tables (S : Argsort) (server : Server) (config_dict : ConfigDict)
    (st : state) :
  main S server config_dict start = (inr tt, st) ->
  exists (expansions : list Expansion) (data : list RawRecord)
         (data_pd : list Row),
    expansions_json server = Some expansions
    /\ collection_json server = Some data
    /\ normalize S data = inr data_pd
    /\ Forall2
         (table_of server (expansions_dict expansions 1)
            (yaml_price_cents_threshold config_dict) data_pd)
         (colors (get_config config_dict)) (tables st)
    /\ lookups st = blueprints_of (tables st)
    /\ console st
       = Reading (length data) :: map Printed (tables st)
           ++ [Total (items_after 0 (tables st))
                 (value_after 0%float (tables st))].
Proof.
  intros H. apply main_inr in H.
  destruct H as [expansions [data [data_pd [ts H]]]].
  destruct H as [Hexp [Hdata [Hnorm [Hts [Hreq Hcon]]]]].
  assert (Htables : tables st = ts).
  { unfold tables. rewrite Hcon. cbn [flat_map app].
    apply tables_printed. intros t Ht. discriminate Ht. }
  exists expansions, data, data_pd. rewrite Htables.
  repeat split; try assumption.
  unfold lookups. rewrite Hreq. cbn [flat_map app].
  apply lookups_blueprints.
Qed.

Lemma Forall2_table_titles (server : Server)
    (expansions : gmap Z (string * string)) (price_thresh : Z)
    (data_pd : list Row) (colors : list Color) (ts : list Table) :
  Forall2 (table_of server expansions price_thresh data_pd) colors ts ->
  map title_color ts = colors.
Proof.
  induction 1 as [| color t colors ts Ht _ IH]; [reflexivity |].
  cbn [map]. destruct Ht as [-> _]. now rewrite IH.
Qed.

Lemma Forall2_table_in (server : Server)
    (expansions : gmap Z (string * string)) (price_thresh : Z)
    (data_pd : list Row) (colors : list Color) (ts : list Table) (t : Table) :
  Forall2 (table_of server expansions price_thresh data_pd) colors ts ->
  In t ts ->
  table_of server expansions price_thresh data_pd (title_color t) t.
Proof.
  induction 1 as [| color t' colors ts Ht _ IH]; intros Hin; [destruct Hin |].
  destruct Hin as [-> | Hin]; [| now apply IH].
  pose proof Ht as [<- _]. exact Ht.
Qed.

Lemma main_titles (S : Argsort) (server : Server) (config_dict : ConfigDict)
    (st : state) :
  main S server config_dict start = (inr tt, st) ->
  map title_color (tables st) = colors (get_config config_dict).
Proof.
  intros H. apply main_tables in H.
  destruct H as [expansions [data [data_pd H]]].
  destruct H as [_ [_ [_ [Hts _]]]].
  apply Forall2_table_titles in Hts. exact Hts.
Qed.

(** ** The frame after [json_normalize] and [sort_values] *)



Lemma json_normalize_lookup_from (data : list RawRecord) (s i : nat)
    (record : RawRecord) :
  In (i, record) (combine (seq s (length data)) data) <->
  (s <= i)%nat /\ nth_error data (i - s) = Some record.
Proof.
  revert s. induction data as [| x data IH]; intros s.
  - cbn. split; [tauto |]. intros [_ H]. destruct (i - s)%nat; discriminate H.
  - cbn [length seq combine In]. rewrite IH. split.
    + intros [Heq | [Hle Hnth]].
      * injection Heq as <- <-. rewrite Nat.sub_diag. split; [lia | reflexivity].
      * split; [lia |].
        replace (i - s)%nat with (S (i - S s)) by lia. exact Hnth.
    + intros [Hle Hnth].
      destruct (Nat.eq_dec s i) as [<- | Hne].
      * rewrite Nat.sub_diag in Hnth. injection Hnth as <-. now left.
      * right. split; [lia |].
        replace (i - s)%nat with (S (i - S s)) in Hnth by lia. exact Hnth.
Qed.

Lemma json_normalize_lookup (data : list RawRecord) (i : nat)
    (record : RawRecord) :
  In (i, record) (json_normalize data) <-> nth_error data i = Some record.
Proof.
  unfold json_normalize. rewrite json_normalize_lookup_from, Nat.sub_0_r.
  split; [tauto |]. intros H. split; [lia | exact H].
Qed.

Lemma sort_values_Permutation (S : Argsort) (df : list (nat * RawRecord)) :
  Permutation (sort_values S df) df.
Proof.
  unfold sort_values.
  eapply Permutation_trans;
    [| apply (filter_split_Permutation
                (fun r => notna (raw_price_cents (snd r))) df)].
  apply Permutation_app_tail.
  eapply Permutation_trans; [symmetry; apply Permutation_rev |].
  eapply Permutation_trans; [| symmetry; apply Permutation_rev].
  apply take_at_Permutation.
  rewrite <- (length_map price_key). apply argsort_perm.
Qed.




(** ** The normalised frame *)

Lemma normalize_inr (S : Argsort) (data : list RawRecord)
    (data_pd : list Row) :
  normalize S data = inr data_pd <->
  has_column raw_price_cents data = true
  /\ has_column raw_mtg_card_colors data = true
  /\ has_column raw_mtg_foil data = true
  /\ data_pd = map finish_row (dropna (sort_values S (json_normalize data))).
Proof.
  unfold normalize.
  destruct (has_column raw_price_cents data),
    (has_column raw_mtg_card_colors data), (has_column raw_mtg_foil data);
    cbn [negb]; split.
  all: try (intros H; discriminate H).
  all: try (intros [H1 [H2 [H3 _]]]; discriminate).
  - intros H. injection H as <-. repeat split.
  - intros [_ [_ [_ ->]]]. reflexivity.
Qed.





(** A row of the frame is a record of the export that carries colours,
    under the position it had there; and every such record is a row. *)
Lemma normalize_rows (S : Argsort) (data : list RawRecord)
    (data_pd : list Row) (r : Row) :
  normalize S data = inr data_pd ->
  In r data_pd <->
  exists record : RawRecord,
    nth_error data (index r) = Some record
    /\ notna (raw_mtg_card_colors record) = true
    /\ r = finish_row (index r, record).
Proof.
  intros H. apply normalize_inr in H. destruct H as [_ [_ [_ ->]]].
  rewrite in_map_iff. split.
  - intros [[i record] [<- Hin]]. unfold dropna in Hin.
    apply filter_In in Hin. destruct Hin as [Hin Hcol].
    apply (Permutation_in _ (sort_values_Permutation S _)) in Hin.
    apply json_normalize_lookup in Hin.
    exists record. cbn [index finish_row fst snd] in *. repeat split; assumption.
  - intros [record [Hnth [Hcol Hr]]].
    exists (index r, record). split; [now symmetry |].
    unfold dropna. apply filter_In. split; [| exact Hcol].
    apply (Permutation_in _ (Permutation_sym (sort_values_Permutation S _))).
    now apply json_normalize_lookup.
Qed.

(** ** Expansion lookups *)

Lemma count_occ_map_filter {A : Type} (f : A -> Z) (l : list A) (id : Z) :
  count_occ Z.eq_dec (map f l) id
  = length (List.filter (fun x => f x =? id) l).
Proof.
  induction l as [| x l IH]; [reflexivity |].
  cbn [map count_occ List.filter].
  destruct (Z.eq_dec (f x) id) as [Heq | Hne].
  - apply Z.eqb_eq in Heq. rewrite Heq. cbn [length]. now rewrite IH.
  - apply Z.eqb_neq in Hne. now rewrite Hne.
Qed.

Lemma blueprints_of_rows (ts : list Table) :
  blueprints_of ts
  = map (fun re : Row * string => blueprint_id (fst re))
      (concat (map rows ts)).
Proof.
  unfold blueprints_of. induction ts as [| t ts IH]; [reflexivity |].
  cbn [map concat]. now rewrite map_app, IH.
Qed.

(** C1, as the script does it: a run that completes has sent one
    blueprint request for every row it printed, in the order of the rows;
    a blueprint is requested as many times as printed rows carry it.
    Nothing is remembered between two rows. *)
Theorem one_lookup_per_printed_row (S : Argsort) (server : Server)
    (config_dict : ConfigDict) (st : state) :
  main S server config_dict start = (inr tt, st) ->
  lookups st = blueprints_of (tables st)
  /\ forall id : Z,
       count_occ Z.eq_dec (lookups st) id
       = length
           (List.filter (fun re : Row * string => blueprint_id (fst re) =? id)
              (concat (map rows (tables st)))).
Proof.
  intros H. apply main_tables in H.
  destruct H as [expansions [data [data_pd H]]].
  destruct H as [_ [_ [_ [_ [Hlook _]]]]].
  split; [exact Hlook |].
  intros id. rewrite Hlook, blueprints_of_rows. apply count_occ_map_filter.
Qed.

Lemma one_lookup_per_printed_row_witness :
  exists st : state,
    main stable_argsort
      (cardtrader
         [card 42 (Some 500) (Some false) (Some "W"%string);
          card 42 (Some 300) (Some true) (Some "W"%string);
          card 43 (Some 100) (Some true) (Some "U"%string)])
      (config_yaml 0 ["W"; "U"]%string) start = (inr tt, st)
    /\ lookups st = [42; 42; 43]
    /\ lookups st = blueprints_of (tables st)
    /\ forall id : Z,
         count_occ Z.eq_dec (lookups st) id
         = length
             (List.filter
                (fun re : Row * string => blueprint_id (fst re) =? id)
                (concat (map rows (tables st)))).
Proof.
  eexists. split; [vm_compute; reflexivity |].
  split; [reflexivity |].
  apply (one_lookup_per_printed_row stable_argsort
           (cardtrader
              [card 42 (Some 500) (Some false) (Some "W"%string);
               card 42 (Some 300) (Some true) (Some "W"%string);
               card 43 (Some 100) (Some true) (Some "U"%string)])
           (config_yaml 0 ["W"; "U"]%string)).
  vm_compute. reflexivity.
Defined.

(** C1, refuted as stated: two cards share blueprint 42; the run
    completes and has requested that blueprint twice. *)
Lemma shared_blueprint_requested_twice :
  exists st : state,
    main stable_argsort
      (cardtrader
         [card 42 (Some 500) (Some false) (Some "W"%string);
          card 42 (Some 300) (Some true) (Some "W"%string)])
      (config_yaml 0 ["W"]%string) start = (inr tt, st)
    /\ lookups st = [42; 42]
    /\ ~ (count_occ Z.eq_dec (lookups st) 42%Z <= 1)%nat.
Proof.
  eexists. split; [vm_compute; reflexivity |].
  split; [reflexivity |]. vm_compute. lia.
Qed.

(** ** Order of the tables *)

(** C2, as the script does it: the tables of a run that completes
    follow the definition order of the enumeration, restricted to the
    members whose code is in the configuration's list; the order of that
    list plays no part. *)
Theorem tables_follow_enumeration_order (S : Argsort) (server : Server)
    (config_dict : ConfigDict) (st : state) :
  main S server config_dict start = (inr tt, st) ->
  map title_color (tables st)
  = List.filter (fun color => str_in (code color) (yaml_colors config_dict))
      [MULTICOLOR; WHITE; BLUE; BLACK; RED; GREEN; ARTIFACTS; LANDS].
Proof. apply main_titles. Qed.

Lemma tables_follow_enumeration_order_witness :
  map title_color
    (tables
       (final
          (main stable_argsort
             (cardtrader
                [card 42 (Some 500) (Some false) (Some "W"%string);
                 card 43 (Some 100) (Some true) (Some "RG"%string)])
             (config_yaml 0 ["L"; "W"; "M"]%string) start)))
  = List.filter
      (fun color => str_in (code color) ["L"; "W"; "M"]%string)
      [MULTICOLOR; WHITE; BLUE; BLACK; RED; GREEN; ARTIFACTS; LANDS].
Proof.
  apply (tables_follow_enumeration_order stable_argsort
           (cardtrader
              [card 42 (Some 500) (Some false) (Some "W"%string);
               card 43 (Some 100) (Some true) (Some "RG"%string)])
           (config_yaml 0 ["L"; "W"; "M"]%string)).
  vm_compute. reflexivity.
Defined.

(** C2, refuted as stated: the configuration lists white before
    multicolour, and the multicolour table is printed first. *)
Lemma white_then_multicolor_prints_multicolor_first :
  exists st : state,
    main stable_argsort
      (cardtrader
         [card 42 (Some 500) (Some false) (Some "W"%string);
          card 43 (Some 100) (Some true) (Some "RG"%string)])
      (config_yaml 0 ["W"; "M"]%string) start = (inr tt, st)
    /\ map (fun t => code (title_color t)) (tables st) = ["M"; "W"]%string
    /\ map (fun t => code (title_color t)) (tables st) <> ["W"; "M"]%string.
Proof.
  eexists. split; [vm_compute; reflexivity |].
  split; [reflexivity |]. intros H. discriminate H.
Qed.

(** ** Price order *)

Lemma selects_price (color : Color) (price_thresh : Z) (r : Row) :
  selects color price_thresh r = true ->
  exists p : Z, price_cents r = Some p /\ price_thresh <= p.
Proof.
  unfold selects. intros H.
  assert (Hge : price_ge (price_cents r) price_thresh = true).
  { destruct (is_MULTICOLOR color); apply andb_true_iff in H; apply H. }
  unfold price_ge in Hge. destruct (price_cents r) as [p |]; [| discriminate].
  exists p. split; [reflexivity | now apply Z.leb_le].
Qed.


Lemma query_sublist (color : Color) (price_thresh : Z) (data_pd : list Row) :
  sublist (query color price_thresh data_pd) data_pd.
Proof.
  unfold query. induction data_pd as [| r data_pd IH]; [constructor |].
  cbn [List.filter]. destruct (selects color price_thresh r).
  - now apply sublist_skip.
  - now apply sublist_cons.
Qed.




(** ** The multicolour query *)

Lemma Color_all_exclude_multi :
  Color_all true = ["W"; "U"; "B"; "R"; "G"; "C"; "L"]%string.
Proof. reflexivity. Qed.

Lemma selects_MULTICOLOR (price_thresh : Z) (r : Row) :
  selects MULTICOLOR price_thresh r = true <->
  (forall c : string,
      In c ["W"; "U"; "B"; "R"; "G"; "C"; "L"]%string ->
      mtg_card_colors r <> Some c)
  /\ exists p : Z, price_cents r = Some p /\ price_thresh <= p.
Proof.
  unfold selects. cbn [is_MULTICOLOR].
  rewrite Color_all_exclude_multi, andb_true_iff.
  assert (Hcolours :
            colors_not_in (mtg_card_colors r)
              ["W"; "U"; "B"; "R"; "G"; "C"; "L"]%string = true <->
            forall c : string,
              In c ["W"; "U"; "B"; "R"; "G"; "C"; "L"]%string ->
              mtg_card_colors r <> Some c).
  { unfold colors_not_in. destruct (mtg_card_colors r) as [s |].
    - rewrite negb_true_iff, <- not_true_iff_false, str_in_In. split.
      + intros Hnot c Hc Heq. injection Heq as ->. now apply Hnot.
      + intros Hall Hin. now apply (Hall s).
    - split; [intros _ c _ H; discriminate H | reflexivity]. }
  assert (Hprice :
            price_ge (price_cents r) price_thresh = true <->
            exists p : Z, price_cents r = Some p /\ price_thresh <= p).
  { unfold price_ge. destruct (price_cents r) as [p |].
    - rewrite Z.leb_le. split.
      + intros H. now exists p.
      + intros [q [Hq H]]. now injection Hq as ->.
    - split; [discriminate | intros [q [Hq _]]; discriminate Hq]. }
  rewrite Hcolours, Hprice. reflexivity.
Qed.

(** C4: whatever the configuration enables, the rows of a multicolour
    table are exactly the rows of the normalised frame whose colours are
    none of the seven codes W, U, B, R, G, C, L and whose price is at
    least the threshold. *)
Theorem multicolor_table_excludes_the_seven_codes (S : Argsort)
    (server : Server) (config_dict : ConfigDict) (st : state)
    (data : list RawRecord) (data_pd : list Row) :
  main S server config_dict start = (inr tt, st) ->
  collection_json server = Some data ->
  normalize S data = inr data_pd ->
  forall (t : Table) (r : Row),
    In t (tables st) ->
    title_color t = MULTICOLOR ->
    In r (map fst (rows t)) <->
    In r data_pd
    /\ (forall c : string,
          In c ["W"; "U"; "B"; "R"; "G"; "C"; "L"]%string ->
          mtg_card_colors r <> Some c)
    /\ exists p : Z,
         price_cents r = Some p
         /\ yaml_price_cents_threshold config_dict <= p.
Proof.
  intros Hmain Hdata Hnorm t r Ht Hmulti.
  apply main_tables in Hmain.
  destruct Hmain as [expansions [data' [data_pd' H]]].
  destruct H as [_ [Hdata' [Hnorm' [Hts _]]]].
  rewrite Hdata in Hdata'. injection Hdata' as <-.
  rewrite Hnorm in Hnorm'. injection Hnorm' as <-.
  apply (Forall2_table_in _ _ _ _ _ _ t) in Hts; [| exact Ht].
  destruct Hts as [_ [_ [Hrows _]]].
  rewrite Hrows, Hmulti. unfold query.
  rewrite filter_In, selects_MULTICOLOR. reflexivity.
Qed.

Lemma multicolor_table_excludes_the_seven_codes_witness :
  exists (st : state) (data_pd : list Row),
    main stable_argsort
      (cardtrader
         [card 1 (Some 500) (Some false) (Some "W"%string);
          card 2 (Some 400) (Some true) (Some "wu"%string);
          card 3 (Some 50) (Some false) (Some "RG"%string)])
      (config_yaml 100 ["M"]%string) start = (inr tt, st)
    /\ map (fun t => map (fun re => index (fst re)) (rows t)) (tables st)
       = [[1%nat]]
    /\ forall (t : Table) (r : Row),
         In t (tables st) ->
         title_color t = MULTICOLOR ->
         In r (map fst (rows t)) <->
         In r data_pd
         /\ (forall c : string,
               In c ["W"; "U"; "B"; "R"; "G"; "C"; "L"]%string ->
               mtg_card_colors r <> Some c)
         /\ exists p : Z, price_cents r = Some p /\ 100 <= p.
Proof.
  eexists. eexists. split; [vm_compute; reflexivity |].
  split; [reflexivity |].
  apply (multicolor_table_excludes_the_seven_codes stable_argsort
           (cardtrader
              [card 1 (Some 500) (Some false) (Some "W"%string);
               card 2 (Some 400) (Some true) (Some "wu"%string);
               card 3 (Some 50) (Some false) (Some "RG"%string)])
           (config_yaml 100 ["M"]%string) _
           [card 1 (Some 500) (Some false) (Some "W"%string);
            card 2 (Some 400) (Some true) (Some "wu"%string);
            card 3 (Some 50) (Some false) (Some "RG"%string)]).
  - vm_compute. reflexivity.
  - reflexivity.
  - vm_compute. reflexivity.
Defined.

(** ** One table per row *)

Lemma category_of_selects (price_thresh : Z) (r : Row) (color : Color) :
  price_ge (price_cents r) price_thresh = true ->
  selects color price_thresh r = true <-> color = category_of r.
Proof.
  intros Hge. unfold selects, category_of. rewrite Hge, !andb_true_r.
  rewrite Color_all_exclude_multi.
  destruct (mtg_card_colors r) as [s |].
  - destruct color;
      cbn [list_Color List.find is_MULTICOLOR negb andb colors_eq code
             colors_not_in str_in existsb];
      repeat
        match goal with
        | |- context [String.eqb s ?c] =>
            destruct (String.eqb_spec s c) as [-> | ?]
        end;
      cbn; split; intros H; first [reflexivity | discriminate H].
  - destruct color; cbn; split; intros H;
      first [reflexivity | discriminate H].
Qed.

Lemma category_of_code (r : Row) (color : Color) :
  color <> MULTICOLOR ->
  category_of r = color <-> mtg_card_colors r = Some (code color).
Proof.
  intros Hcolor. unfold category_of.
  destruct (mtg_card_colors r) as [s |].
  - destruct color;
      cbn [list_Color List.find is_MULTICOLOR negb andb colors_eq code];
      repeat
        match goal with
        | |- context [String.eqb s ?c] =>
            destruct (String.eqb_spec s c) as [-> | ?]
        end;
      cbn; split; intros H;
      first [reflexivity | discriminate H | congruence].
  - destruct color; cbn; split; intros H;
      first [discriminate H | congruence].
Qed.

(** C5: when the configuration lists all eight codes, a run that
    completes prints the eight tables, one per category, and a row of the
    normalised frame whose price reaches the threshold is in the rows of
    exactly the table of its category: the member other than multicolour
    whose code equals the row's colours, and multicolour when there is
    none. *)
Theorem priced_row_is_in_exactly_one_table (S : Argsort) (server : Server)
    (config_dict : ConfigDict) (st : state) (data : list RawRecord)
    (data_pd : list Row) :
  (forall color : Color, In (code color) (yaml_colors config_dict)) ->
  main S server config_dict start = (inr tt, st) ->
  collection_json server = Some data ->
  normalize S data = inr data_pd ->
  map title_color (tables st)
  = [MULTICOLOR; WHITE; BLUE; BLACK; RED; GREEN; ARTIFACTS; LANDS]
  /\ forall r : Row,
       In r data_pd ->
       price_ge (price_cents r) (yaml_price_cents_threshold config_dict)
       = true ->
       (forall t : Table,
           In t (tables st) ->
           In r (map fst (rows t)) <-> title_color t = category_of r)
       /\ (forall color : Color,
              color <> MULTICOLOR ->
              category_of r = color <->
              mtg_card_colors r = Some (code color)).
Proof.
  intros Hall Hmain Hdata Hnorm. split.
  - rewrite (main_titles S server config_dict st Hmain).
    unfold get_config. cbn [colors]. change list_Color with
      [MULTICOLOR; WHITE; BLUE; BLACK; RED; GREEN; ARTIFACTS; LANDS].
    apply forallb_filter_id. apply forallb_forall. intros color _.
    apply str_in_In, Hall.
  - intros r Hr Hge. split; [| intros color; apply category_of_code].
    intros t Ht.
    apply main_tables in Hmain.
    destruct Hmain as [expansions [data' [data_pd' H]]].
    destruct H as [_ [Hdata' [Hnorm' [Hts _]]]].
    rewrite Hdata in Hdata'. injection Hdata' as <-.
    rewrite Hnorm in Hnorm'. injection Hnorm' as <-.
    apply (Forall2_table_in _ _ _ _ _ _ t) in Hts; [| exact Ht].
    destruct Hts as [_ [_ [Hrows _]]].
    rewrite Hrows. unfold query.
    rewrite filter_In, (category_of_selects _ _ _ Hge). tauto.
Qed.

Lemma priced_row_is_in_exactly_one_table_witness :
  exists (st : state) (data_pd : list Row),
    main stable_argsort
      (cardtrader
         [card 1 (Some 500) (Some false) (Some "w"%string);
          card 2 (Some 400) (Some true) (Some "WU"%string);
          card 3 (Some 300) (Some false) (Some "L"%string);
          card 4 (Some 50) (Some false) (Some "G"%string)])
      (config_yaml 100 ["L"; "C"; "G"; "R"; "B"; "U"; "W"; "M"]%string)
      start = (inr tt, st)
    /\ map (fun t => map (fun re => index (fst re)) (rows t)) (tables st)
       = [[1]; [0]; []; []; []; []; []; [2]]%nat
    /\ map title_color (tables st)
       = [MULTICOLOR; WHITE; BLUE; BLACK; RED; GREEN; ARTIFACTS; LANDS]
    /\ forall r : Row,
         In r data_pd ->
         price_ge (price_cents r) 100 = true ->
         (forall t : Table,
             In t (tables st) ->
             In r (map fst (rows t)) <-> title_color t = category_of r)
         /\ (forall color : Color,
                color <> MULTICOLOR ->
                category_of r = color <->
                mtg_card_colors r = Some (code color)).
Proof.
  eexists. eexists. split; [vm_compute; reflexivity |].
  split; [reflexivity |].
  apply (priced_row_is_in_exactly_one_table stable_argsort
           (cardtrader
              [card 1 (Some 500) (Some false) (Some "w"%string);
               card 2 (Some 400) (Some true) (Some "WU"%string);
               card 3 (Some 300) (Some false) (Some "L"%string);
               card 4 (Some 50) (Some false) (Some "G"%string)])
           (config_yaml 100 ["L"; "C"; "G"; "R"; "B"; "U"; "W"; "M"]%string)
           _
           [card 1 (Some 500) (Some false) (Some "w"%string);
            card 2 (Some 400) (Some true) (Some "WU"%string);
            card 3 (Some 300) (Some false) (Some "L"%string);
            card 4 (Some 50) (Some false) (Some "G"%string)]).
  - intros color. destruct color; cbn; auto 10.
  - vm_compute. reflexivity.
  - reflexivity.
  - vm_compute. reflexivity.
Defined.

(** ** Totals *)

Lemma items_after_sum (ts : list Table) (total_items : nat) :
  items_after total_items ts
  = (total_items + list_sum (map caption_items ts))%nat.
Proof.
  unfold items_after. revert total_items.
  induction ts as [| t ts IH]; intros total_items; cbn [fold_left map].
  - cbn. lia.
  - rewrite IH. cbn [list_sum fold_right]. fold (list_sum (map caption_items ts)).
    lia.
Qed.


(** *** The range in which the sums are exact *)













(** ** Records without a price *)

Lemma normalize_succeeds (S : Argsort) (data : list RawRecord) :
  (exists data_pd : list Row, normalize S data = inr data_pd) <->
  has_column raw_price_cents data = true
  /\ has_column raw_mtg_card_colors data = true
  /\ has_column raw_mtg_foil data = true.
Proof.
  split.
  - intros [data_pd H]. apply normalize_inr in H. tauto.
  - intros [H1 [H2 H3]]. eexists. apply normalize_inr. repeat split; assumption.
Qed.

Lemma main_raises_in_normalize (S : Argsort) (server : Server)
    (config_dict : ConfigDict) (expansions : list Expansion)
    (data : list RawRecord) (e : exn) :
  expansions_json server = Some expansions ->
  collection_json server = Some data ->
  normalize S data = inl e ->
  main S server config_dict start
  = (inl e,
     {| requests := [GET_expansions; GET_collection];
        console := [Reading (length data)] |}).
Proof.
  intros Hexp Hdata Hnorm.
  unfold main, bind, get, send, print, ret, lift.
  rewrite Hexp, Hdata. cbn. rewrite Hnorm. reflexivity.
Qed.

Lemma query_rows_priced (color : Color) (price_thresh : Z)
    (data_pd : list Row) (r : Row) :
  In r (query color price_thresh data_pd) ->
  In r data_pd
  /\ exists p : Z, price_cents r = Some p /\ price_thresh <= p.
Proof.
  unfold query. rewrite filter_In. intros [Hin Hsel].
  split; [exact Hin | now apply (selects_price color)].
Qed.




(** The empty export has no column at all: [sort_values] raises for the
    first one the script names, before the first table. *)
Example empty_export_raises_KeyError :
  main stable_argsort (cardtrader []) (config_yaml 0 ["W"]%string) start
  = (inl (KeyError "price_cents"),
     {| requests := [GET_expansions; GET_collection];
        console := [Reading 0] |}).
Proof. reflexivity. Qed.

(** ** Records without colours *)

Lemma finish_row_colours (r : nat * RawRecord) :
  notna (raw_mtg_card_colors (snd r)) = true ->
  mtg_card_colors (finish_row r) <> None.
Proof.
  cbn [mtg_card_colors finish_row].
  destruct (raw_mtg_card_colors (snd r)); [discriminate | intros H; discriminate H].
Qed.

Lemma normalize_colours (S : Argsort) (data : list RawRecord)
    (data_pd : list Row) (r : Row) :
  normalize S data = inr data_pd -> In r data_pd -> mtg_card_colors r <> None.
Proof.
  intros Hnorm Hr. apply (normalize_rows S data data_pd r Hnorm) in Hr.
  destruct Hr as [record [_ [Hcol ->]]]. now apply finish_row_colours.
Qed.

(** X21: in an export that has the three columns the script names (some
    record carries a price, some record colours, some record a foil flag)
    normalisation succeeds and drops the records without colours in
    silence: the frame keeps exactly the records that carry colours, and
    no row of the frame, of a query or of a printed table has null
    colours. *)
Theorem records_without_colours_are_dropped (S : Argsort)
    (data : list RawRecord) :
  has_column raw_price_cents data = true ->
  has_column raw_mtg_card_colors data = true ->
  has_column raw_mtg_foil data = true ->
  exists data_pd : list Row,
    normalize S data = inr data_pd
    /\ (forall (i : nat) (record : RawRecord),
           nth_error data i = Some record ->
           In i (map index data_pd) <-> raw_mtg_card_colors record <> None)
    /\ (forall r : Row, In r data_pd -> mtg_card_colors r <> None)
    /\ (forall (color : Color) (price_thresh : Z) (r : Row),
           In r (query color price_thresh data_pd) ->
           mtg_card_colors r <> None)
    /\ (forall (server : Server) (config_dict : ConfigDict) (st : state),
           collection_json server = Some data ->
           main S server config_dict start = (inr tt, st) ->
           forall (t : Table) (r : Row),
             In t (tables st) -> In r (map fst (rows t)) ->
             mtg_card_colors r <> None).
Proof.
  intros Hprice Hcol Hfoil.
  destruct (proj2 (normalize_succeeds S data)) as [data_pd Hnorm];
    [repeat split; assumption |].
  exists data_pd. split; [exact Hnorm |]. split; [| split; [| split]].
  - intros i record Hnth. rewrite in_map_iff. split.
    + intros [r [<- Hr]].
      apply (normalize_rows S data data_pd r Hnorm) in Hr.
      destruct Hr as [record' [Hnth' [Hnotna _]]].
      rewrite Hnth in Hnth'. injection Hnth' as <-.
      destruct (raw_mtg_card_colors record); [discriminate | discriminate Hnotna].
    + intros Hsome. exists (finish_row (i, record)). split; [reflexivity |].
      apply (normalize_rows S data data_pd _ Hnorm).
      exists record. cbn [index finish_row fst snd].
      repeat split; [exact Hnth |].
      destruct (raw_mtg_card_colors record); [reflexivity | congruence].
  - intros r. apply (normalize_colours S data data_pd r Hnorm).
  - intros color price_thresh r Hr. apply query_rows_priced in Hr.
    apply (normalize_colours S data data_pd r Hnorm), Hr.
  - intros server config_dict st Hdata Hmain t r Ht Hr.
    apply main_tables in Hmain.
    destruct Hmain as [expansions [data' [data_pd' H]]].
    destruct H as [_ [Hdata' [Hnorm' [Hts _]]]].
    rewrite Hdata in Hdata'. injection Hdata' as <-.
    rewrite Hnorm in Hnorm'. injection Hnorm' as <-.
    apply (Forall2_table_in _ _ _ _ _ _ t) in Hts; [| exact Ht].
    destruct Hts as [_ [_ [Hrows _]]].
    rewrite Hrows in Hr. apply query_rows_priced in Hr.
    apply (normalize_colours S data data_pd r Hnorm), Hr.
Qed.

Lemma records_without_colours_are_dropped_witness :
  exists data_pd : list Row,
    normalize stable_argsort
      [card 1 (Some 500) (Some false) None;
       card 2 (Some 400) (Some true) (Some "w"%string);
       card 3 (Some 900) None None]
    = inr data_pd
    /\ (forall (i : nat) (record : RawRecord),
           nth_error
             [card 1 (Some 500) (Some false) None;
              card 2 (Some 400) (Some true) (Some "w"%string);
              card 3 (Some 900) None None] i = Some record ->
           In i (map index data_pd) <-> raw_mtg_card_colors record <> None)
    /\ (forall r : Row, In r data_pd -> mtg_card_colors r <> None)
    /\ (forall (color : Color) (price_thresh : Z) (r : Row),
           In r (query color price_thresh data_pd) ->
           mtg_card_colors r <> None)
    /\ (forall (server : Server) (config_dict : ConfigDict) (st : state),
           collection_json server
           = Some
               [card 1 (Some 500) (Some false) None;
                card 2 (Some 400) (Some true) (Some "w"%string);
                card 3 (Some 900) None None] ->
           main stable_argsort server config_dict start = (inr tt, st) ->
           forall (t : Table) (r : Row),
             In t (tables st) -> In r (map fst (rows t)) ->
             mtg_card_colors r <> None).
Proof.
  apply (records_without_colours_are_dropped stable_argsort
           [card 1 (Some 500) (Some false) None;
            card 2 (Some 400) (Some true) (Some "w"%string);
            card 3 (Some 900) None None]);
    reflexivity.
Defined.

(** C8, at the failing input: in the only record of the export the
    [properties_hash] has no [mtg_card_colors] key.  The claim has the
    record dropped in silence, which leaves an empty report; the script
    stops with the [KeyError] of [dropna], for want of the column, after
    the line counting the records and before any table. *)
Lemma export_without_colours_raises_KeyError :
  main stable_argsort
    (cardtrader [card 1 (Some 500) (Some false) None])
    (config_yaml 0 ["W"]%string) start
  = (inl (KeyError "properties_hash.mtg_card_colors"),
     {| requests := [GET_expansions; GET_collection];
        console := [Reading 1] |}).
Proof. reflexivity. Qed.

(** ** The foil column *)

(** C9, as the script does it: the foil cell of a row is read off the
    record's flag in three ways: the check mark for [True], the empty
    string for [False], and NaN where the flag is absent; only an explicit
    [True] gives the check mark, and an absent flag does not give the cell
    of [False]. *)
Theorem foil_cell_of_the_flag (S : Argsort) (data : list RawRecord)
    (data_pd : list Row) :
  normalize S data = inr data_pd ->
  forall r : Row,
    In r data_pd ->
    exists record : RawRecord,
      nth_error data (index r) = Some record
      /\ mtg_foil r = raw_mtg_foil record
      /\ (raw_mtg_foil record = Some true ->
          foil r = Text ":heavy_check_mark:")
      /\ (raw_mtg_foil record = Some false -> foil r = Text "")
      /\ (raw_mtg_foil record = None -> foil r = NaN)
      /\ (foil r = Text ":heavy_check_mark:" <->
          raw_mtg_foil record = Some true).
Proof.
  intros Hnorm r Hr. apply (normalize_rows S data data_pd r Hnorm) in Hr.
  destruct Hr as [record [Hnth [_ Hr]]].
  exists record. split; [exact Hnth |]. rewrite Hr.
  cbn [mtg_foil foil finish_row fst snd].
  destruct (raw_mtg_foil record) as [[|] |]; cbn [replace_foil];
    repeat split; intros H; first [reflexivity | discriminate H].
Qed.

Lemma foil_cell_of_the_flag_witness :
  exists data_pd : list Row,
    normalize stable_argsort
      [card 1 (Some 500) (Some true) (Some "W"%string);
       card 2 (Some 400) (Some false) (Some "W"%string);
       card 3 (Some 300) None (Some "W"%string)]
    = inr data_pd
    /\ map foil data_pd = [Text ":heavy_check_mark:"; Text ""; NaN]
    /\ forall r : Row,
         In r data_pd ->
         exists record : RawRecord,
           nth_error
             [card 1 (Some 500) (Some true) (Some "W"%string);
              card 2 (Some 400) (Some false) (Some "W"%string);
              card 3 (Some 300) None (Some "W"%string)] (index r)
           = Some record
           /\ mtg_foil r = raw_mtg_foil record
           /\ (raw_mtg_foil record = Some true ->
               foil r = Text ":heavy_check_mark:")
           /\ (raw_mtg_foil record = Some false -> foil r = Text "")
           /\ (raw_mtg_foil record = None -> foil r = NaN)
           /\ (foil r = Text ":heavy_check_mark:" <->
               raw_mtg_foil record = Some true).
Proof.
  eexists. split; [vm_compute; reflexivity |].
  split; [reflexivity |].
  apply (foil_cell_of_the_flag stable_argsort
           [card 1 (Some 500) (Some true) (Some "W"%string);
            card 2 (Some 400) (Some false) (Some "W"%string);
            card 3 (Some 300) None (Some "W"%string)]).
  vm_compute. reflexivity.
Defined.

(** C9, refuted as stated: of two rows, one from a record without the
    flag and one from a record whose flag is [False], the foil cells
    differ: NaN for the first, the empty string for the second. *)
Lemma absent_flag_is_not_the_cell_of_false :
  exists absent no : Row,
    normalize stable_argsort
      [card 1 (Some 500) None (Some "W"%string);
       card 2 (Some 400) (Some false) (Some "W"%string)]
    = inr [absent; no]
    /\ mtg_foil absent = None
    /\ mtg_foil no = Some false
    /\ foil absent = NaN
    /\ foil no = Text ""
    /\ foil absent <> foil no.
Proof.
  eexists. eexists. split; [vm_compute; reflexivity |].
  repeat split. intros H. discriminate H.
Qed.

(** ** The scenarios of the specification, run on the model *)

(** A: two white cards and a blue one against a threshold of 300. *)
Example scenario_threshold :
  rows_by_index
    (final
       (main stable_argsort
          (cardtrader
             [card 1 (Some 500) (Some false) (Some "W"%string);
              card 2 (Some 1000) (Some false) (Some "U"%string);
              card 3 (Some 200) (Some false) (Some "W"%string)])
          (config_yaml 300 ["W"; "U"]%string) start))
  = [(WHITE, [0%nat]); (BLUE, [1%nat])].
Proof. reflexivity. Qed.

(** B: a two-letter colour lands in the multicolour table only. *)
Example scenario_two_letters :
  rows_by_index
    (final
       (main stable_argsort
          (cardtrader [card 1 (Some 500) (Some false) (Some "WU"%string)])
          (config_yaml 0 ["M"; "W"; "U"]%string) start))
  = [(MULTICOLOR, [0%nat]); (WHITE, []); (BLUE, [])].
Proof. reflexivity. Qed.

(** E: with white alone enabled, one table is printed. *)
Example scenario_white_only :
  rows_by_index
    (final
       (main stable_argsort
          (cardtrader
             [card 1 (Some 500) (Some false) (Some "W"%string);
              card 2 (Some 400) (Some false) (Some "WU"%string)])
          (config_yaml 0 ["W"]%string) start))
  = [(WHITE, [0%nat])].
Proof. reflexivity. Qed.

(** ** Rendering: what [df_to_table] adds to a table *)

Lemma add_columns_spec (formats : option (list (option string * string)))
    (columns : list string) (i : nat) (t t' : RichTable) (e : ending) :
  add_columns formats i columns t = (e, t') ->
  exists added : list Column,
    t' = t ++ map add_column added
    /\ map header added = firstn (length added) columns
    /\ (forall (k : nat) (col : Column),
           nth_error added k = Some col ->
           format_at formats (i + k) = Some (style col, justify col))
    /\ match e with
       | Returned => length added = length columns
       | IndexError =>
           (length added < length columns)%nat
           /\ format_at formats (i + length added) = None
       end.
Proof.
  revert i t. induction columns as [| column columns IH]; intros i t H.
  - cbn in H. injection H as <- <-. exists []. cbn.
    rewrite app_nil_r. repeat split. intros [| k] col Hk; discriminate Hk.
  - cbn [add_columns] in H.
    destruct (format_at formats i) as [f |] eqn:Hf.
    + apply IH in H. destruct H as [added [-> [Hhead [Hfmt Hend]]]].
      exists ({| header := column; style := fst f; justify := snd f |}
                :: added).
      rewrite <- app_assoc. cbn [map app length firstn header].
      split; [reflexivity |]. split; [now rewrite Hhead |]. split.
      * intros [| k] col Hk.
        -- cbn in Hk. injection Hk as <-. cbn [style justify].
           rewrite Nat.add_0_r, Hf. now destruct f.
        -- cbn [nth_error] in Hk. apply Hfmt in Hk.
           now rewrite Nat.add_succ_r.
      * destruct e.
        -- now rewrite Hend.
        -- rewrite Nat.add_succ_r. split; [lia | apply Hend].
    + injection H as <- <-. exists []. cbn.
      rewrite app_nil_r, Nat.add_0_r. repeat split; [| lia | exact Hf].
      intros [| k] col Hk; discriminate Hk.
Qed.

Lemma add_rows_spec {V : Type} (str : V -> string) (show_index : bool)
    (values : list (list V)) (i : nat) (t : RichTable) :
  add_rows str show_index i values t
  = t ++ map add_row
           (map (fun kv => row_cells str show_index (fst kv) (snd kv))
              (combine (seq i (length values)) values)).
Proof.
  revert i t. induction values as [| v values IH]; intros i t.
  - cbn. now rewrite app_nil_r.
  - cbn [add_rows length seq combine map fst snd]. rewrite IH, <- app_assoc.
    reflexivity.
Qed.

Lemma columns_of_app (t1 t2 : RichTable) :
  columns_of (t1 ++ t2) = columns_of t1 ++ columns_of t2.
Proof. apply flat_map_app. Qed.

Lemma rows_of_app (t1 t2 : RichTable) :
  rows_of (t1 ++ t2) = rows_of t1 ++ rows_of t2.
Proof. apply flat_map_app. Qed.

Lemma columns_of_columns (cols : list Column) :
  columns_of (map add_column cols) = cols
  /\ rows_of (map add_column cols) = [].
Proof.
  induction cols as [| c cols [IH1 IH2]]; [split; reflexivity |].
  unfold columns_of, rows_of in *. cbn [map flat_map app].
  now rewrite IH1, IH2.
Qed.

Lemma rows_of_rows (rows : list (list string)) :
  rows_of (map add_row rows) = rows
  /\ columns_of (map add_row rows) = [].
Proof.
  induction rows as [| r rows [IH1 IH2]]; [split; reflexivity |].
  unfold columns_of, rows_of in *. cbn [map flat_map app].
  now rewrite IH1, IH2.
Qed.

Lemma format_at_available (formats : option (list (option string * string)))
    (n i : nat) :
  (formats = None \/ formats = Some []
   \/ exists fs, formats = Some fs /\ (n <= length fs)%nat) ->
  (i < n)%nat -> format_at formats i <> None.
Proof.
  intros [-> | [-> | [fs [-> Hlen]]]] Hi; try discriminate.
  unfold format_at. destruct fs as [| f fs]; [discriminate |].
  apply nth_error_Some. lia.
Qed.

Lemma nth_error_enumerate {A : Type} (l : list A) (s k : nat) (x : A) :
  nth_error l k = Some x ->
  nth_error (combine (seq s (length l)) l) k = Some ((s + k)%nat, x).
Proof.
  revert s k. induction l as [| y l IH]; intros s k H.
  - destruct k; discriminate H.
  - destruct k as [| k]; cbn [length seq combine nth_error] in *.
    + injection H as ->. now rewrite Nat.add_0_r.
    + rewrite (IH (S s) k H). f_equal. f_equal. lia.
Qed.

(** What a call that returns has done to an empty table, shared by the
    statements below. *)
Lemma df_to_table_returned {V : Type} (str : V -> string)
    (df : DataFrame V) (show_index : bool) (index_name : option string)
    (formats : option (list (option string * string))) :
  (formats = None \/ formats = Some []
   \/ exists fs, formats = Some fs
                 /\ (length (df_columns df) <= length fs)%nat) ->
  exists added : list Column,
    df_to_table str df [] show_index index_name formats
    = (Returned,
       map add_column
         ((if show_index
           then [{| header := index_header index_name; style := None;
                    justify := "left" |}]
           else []) ++ added)
       ++ map add_row
            (map (fun kv => row_cells str show_index (fst kv) (snd kv))
               (combine (seq 0 (length (df_values df))) (df_values df))))
    /\ map header added = df_columns df
    /\ forall (k : nat) (col : Column),
         nth_error added k = Some col ->
         format_at formats k = Some (style col, justify col).
Proof.
  intros Hfmt. unfold df_to_table.
  destruct (add_columns formats 0 (df_columns df) _) as [e t'] eqn:Hadd.
  apply add_columns_spec in Hadd.
  destruct Hadd as [added [-> [Hhead [Hcol Hend]]]].
  destruct e.
  - exists added. rewrite Hend, firstn_all in Hhead.
    rewrite add_rows_spec. split; [| split; [exact Hhead | exact Hcol]].
    f_equal. f_equal. destruct show_index; cbn [app map]; reflexivity.
  - destruct Hend as [Hlt Hnone]. exfalso.
    now apply (format_at_available formats (length (df_columns df))
                 (0 + length added) Hfmt).
Qed.

(** X1: when [formats] is absent, empty, or at least as long as the
    frame's columns, [df_to_table] returns, and on an empty table it leaves
    the columns before the rows: one column per label (after the index
    column when it is shown), one row per row of values, the row at
    position k holding the decimal k (when the index is shown) followed by
    [str] of its values.  If every row of values is as long as the
    labels, every row of the table has as many cells as the table has
    columns. *)
Theorem df_to_table_fills_a_rectangular_table {V : Type} (str : V -> string)
    (df : DataFrame V) (show_index : bool) (index_name : option string)
    (formats : option (list (option string * string))) :
  (formats = None \/ formats = Some []
   \/ exists fs, formats = Some fs
                 /\ (length (df_columns df) <= length fs)%nat) ->
  exists t : RichTable,
    df_to_table str df [] show_index index_name formats = (Returned, t)
    /\ t = map add_column (columns_of t) ++ map add_row (rows_of t)
    /\ map header (columns_of t)
       = (if show_index then [index_header index_name] else [])
           ++ df_columns df
    /\ length (rows_of t) = length (df_values df)
    /\ (forall (k : nat) (value_list : list V),
           nth_error (df_values df) k = Some value_list ->
           nth_error (rows_of t) k
           = Some ((if show_index then [str_nat k] else [])
                     ++ map str value_list))
    /\ (Forall (fun value_list => length value_list = length (df_columns df))
          (df_values df) ->
        Forall (fun cells => length cells = length (columns_of t))
          (rows_of t)).
Proof.
  intros Hfmt.
  destruct (df_to_table_returned str df show_index index_name formats Hfmt)
    as [added [Hrun [Hhead _]]].
  eexists. split; [exact Hrun |].
  rewrite columns_of_app, rows_of_app.
  destruct (columns_of_columns
              ((if show_index
                then [{| header := index_header index_name; style := None;
                         justify := "left" |}]
                else []) ++ added)) as [-> ->].
  match goal with
  | |- context [rows_of (map add_row ?rs)] =>
      destruct (rows_of_rows rs) as [-> ->]
  end.
  rewrite app_nil_r. cbn [app].
  split; [reflexivity |]. split; [| split; [| split]].
  - rewrite map_app, Hhead. now destruct show_index.
  - rewrite length_map, length_combine, length_seq. lia.
  - intros k value_list Hk.
    rewrite nth_error_map, (nth_error_enumerate _ 0 k value_list Hk).
    reflexivity.
  - intros Hwf. apply List.Forall_forall. intros cells Hcells.
    apply in_map_iff in Hcells. destruct Hcells as [[k v] [<- Hkv]].
    apply in_combine_r in Hkv. rewrite List.Forall_forall in Hwf.
    unfold row_cells. cbn [fst snd].
    rewrite !length_app, length_map, (Hwf v Hkv).
    rewrite <- Hhead, length_map. now destruct show_index.
Qed.

Lemma df_to_table_fills_a_rectangular_table_witness :
  exists t : RichTable,
    df_to_table str_nat
      {| df_columns := ["quantity"; "name"]%string;
         df_values := [[4; 7]; [1; 12]]%nat |}
      [] true (Some "row"%string)
      (Some [(None, "right"); (Some "bold", "left");
             (None, "center")]%string)
    = (Returned, t)
    /\ rows_of t = [["0"; "4"; "7"]; ["1"; "1"; "12"]]%string
    /\ t = map add_column (columns_of t) ++ map add_row (rows_of t)
    /\ map header (columns_of t)
       = [index_header (Some "row"%string)] ++ ["quantity"; "name"]%string
    /\ length (rows_of t) = 2%nat
    /\ (forall (k : nat) (value_list : list nat),
           nth_error [[4; 7]; [1; 12]]%nat k = Some value_list ->
           nth_error (rows_of t) k
           = Some ([str_nat k] ++ map str_nat value_list))
    /\ (Forall (fun value_list : list nat => length value_list = 2%nat)
          [[4; 7]; [1; 12]]%nat ->
        Forall (fun cells => length cells = length (columns_of t))
          (rows_of t)).
Proof.
  destruct (df_to_table_fills_a_rectangular_table str_nat
              {| df_columns := ["quantity"; "name"]%string;
                 df_values := [[4; 7]; [1; 12]]%nat |}
              true (Some "row"%string)
              (Some [(None, "right"); (Some "bold", "left");
                     (None, "center")]%string))
    as [t [Hrun H]].
  - right. right. eexists. split; [reflexivity | cbn; lia].
  - exists t. split; [exact Hrun |].
    split; [| exact H].
    vm_compute in Hrun. injection Hrun as <-. reflexivity.
Defined.

Lemma add_columns_prefix (formats : option (list (option string * string)))
    (columns : list string) (i : nat) (t0 t : RichTable) :
  add_columns formats i columns (t0 ++ t)
  = (fst (add_columns formats i columns t),
     t0 ++ snd (add_columns formats i columns t)).
Proof.
  revert i t. induction columns as [| column columns IH]; intros i t.
  - reflexivity.
  - cbn [add_columns]. destruct (format_at formats i) as [f |].
    + rewrite <- app_assoc. apply IH.
    + reflexivity.
Qed.

Lemma add_rows_prefix {V : Type} (str : V -> string) (show_index : bool)
    (values : list (list V)) (i : nat) (t0 t : RichTable) :
  add_rows str show_index i values (t0 ++ t)
  = t0 ++ add_rows str show_index i values t.
Proof. now rewrite !add_rows_spec, app_assoc. Qed.

(** X2: a non-empty [formats] shorter than the frame's columns makes
    [df_to_table] raise [IndexError] at the first column without a format.
    The table it was given is left changed: it has received the index
    column (when shown) and one column for each format, and no row. *)
Theorem df_to_table_raises_on_short_formats {V : Type} (str : V -> string)
    (df : DataFrame V) (t0 : RichTable) (show_index : bool)
    (index_name : option string) (fs : list (option string * string)) :
  fs <> [] ->
  (length fs < length (df_columns df))%nat ->
  exists t : RichTable,
    df_to_table str df t0 show_index index_name (Some fs) = (IndexError, t)
    /\ rows_of t = rows_of t0
    /\ map (fun col => (header col, (style col, justify col))) (columns_of t)
       = map (fun col => (header col, (style col, justify col)))
           (columns_of t0)
         ++ (if show_index
             then [(index_header index_name, (None, "left"%string))]
             else [])
         ++ combine (firstn (length fs) (df_columns df)) fs.
Proof.
  intros Hne Hshort. unfold df_to_table.
  destruct (add_columns (Some fs) 0 (df_columns df) _) as [e t'] eqn:Hadd.
  apply add_columns_spec in Hadd.
  destruct Hadd as [added [-> [Hhead [Hcol Hend]]]].
  assert (Hat : forall k, format_at (Some fs) k = nth_error fs k).
  { intros k. unfold format_at. destruct fs; [contradiction | reflexivity]. }
  destruct e.
  - exfalso.
    destruct (nth_error added (length fs)) as [col |] eqn:Hk.
    + apply Hcol in Hk. rewrite Hat in Hk. cbn in Hk.
      assert (Hs : nth_error fs (length fs) <> None) by congruence.
      apply nth_error_Some in Hs. lia.
    + apply nth_error_None in Hk. lia.
  - destruct Hend as [Hlt Hnone]. rewrite Hat in Hnone. cbn in Hnone.
    apply nth_error_None in Hnone.
    assert (Hlen : length added = length fs).
    { destruct (Nat.lt_ge_cases (length fs) (length added)) as [Hgt | Hle];
        [| lia].
      exfalso.
      destruct (nth_error added (length fs)) as [col |] eqn:Hk.
      - apply Hcol in Hk. rewrite Hat in Hk. cbn in Hk.
        assert (Hs : nth_error fs (length fs) <> None) by congruence.
        apply nth_error_Some in Hs. lia.
      - apply nth_error_None in Hk. lia. }
    eexists. split; [reflexivity |].
    rewrite rows_of_app, columns_of_app.
    destruct (columns_of_columns added) as [-> ->]. rewrite app_nil_r.
    assert (Hadded : map (fun col => (header col, (style col, justify col)))
                       added
                     = combine (firstn (length fs) (df_columns df)) fs).
    { rewrite <- Hlen, <- Hhead. clear Hhead Hlt Hnone.
      assert (Hfs : forall k col,
                 nth_error added k = Some col ->
                 nth_error fs k = Some (style col, justify col)).
      { intros k col Hk. apply Hcol in Hk. now rewrite Hat in Hk. }
      clear Hcol Hat Hne Hshort. revert fs Hlen Hfs.
      induction added as [| col added IH]; intros fs Hlen Hfs.
      - reflexivity.
      - destruct fs as [| f fs]; [discriminate Hlen |].
        cbn [map combine]. f_equal.
        + specialize (Hfs 0%nat col eq_refl). cbn in Hfs.
          injection Hfs as ->. reflexivity.
        + apply IH; [now injection Hlen |].
          intros k c Hk. exact (Hfs (S k) c Hk). }
    destruct show_index.
    + rewrite rows_of_app, columns_of_app, map_app, map_app, Hadded.
      cbn. rewrite app_nil_r, <- app_assoc. split; reflexivity.
    + rewrite map_app, Hadded. split; reflexivity.
Qed.

Lemma df_to_table_raises_on_short_formats_witness :
  exists t : RichTable,
    df_to_table str_nat
      {| df_columns := ["quantity"; "name"; "price"]%string;
         df_values := [[4; 7; 9]]%nat |}
      [add_row ["kept"%string]] true None
      (Some [(None, "right"); (Some "bold", "left")]%string)
    = (IndexError, t)
    /\ rows_of t = rows_of [add_row ["kept"%string]]
    /\ map (fun col => (header col, (style col, justify col))) (columns_of t)
       = map (fun col => (header col, (style col, justify col)))
           (columns_of [add_row ["kept"%string]])
         ++ [(index_header None, (None, "left"%string))]
         ++ combine
              (firstn 2 ["quantity"; "name"; "price"]%string)
              [(None, "right"); (Some "bold", "left")]%string.
Proof.
  apply (df_to_table_raises_on_short_formats str_nat
           {| df_columns := ["quantity"; "name"; "price"]%string;
              df_values := [[4; 7; 9]]%nat |}
           [add_row ["kept"%string]] true None
           [(None, "right"); (Some "bold", "left")]%string).
  - discriminate.
  - cbn. lia.
Defined.

(** X3: [df_to_table] only appends to the table it is given: whatever
    the table held stays in front, and what is added, and how the call
    ends, is what an empty table would have received. *)
Theorem df_to_table_only_appends {V : Type} (str : V -> string)
    (df : DataFrame V) (t0 : RichTable) (show_index : bool)
    (index_name : option string)
    (formats : option (list (option string * string))) :
  df_to_table str df t0 show_index index_name formats
  = (fst (df_to_table str df [] show_index index_name formats),
     t0 ++ snd (df_to_table str df [] show_index index_name formats)).
Proof.
  unfold df_to_table.
  set (first := if show_index then _ else @nil table_call).
  assert (Hfirst : (if show_index
                    then t0 ++ [add_column
                                  {| header := index_header index_name;
                                     style := None; justify := "left" |}]
                    else t0) = t0 ++ first).
  { subst first. destruct show_index; [reflexivity | now rewrite app_nil_r]. }
  rewrite Hfirst, add_columns_prefix.
  destruct (add_columns formats 0 (df_columns df) first) as [[|] t'];
    cbn [fst snd].
  - now rewrite add_rows_prefix.
  - reflexivity.
Qed.

(** X4: the call [main] makes, without index and with the six formats
    of its [columns] dictionary on a frame of those six columns, never
    raises: it adds the six columns under their names and
    justifications, then one row of [str] cells per row of the query. *)
Theorem main_call_of_df_to_table_returns {V : Type} (str : V -> string)
    (values : list (list V)) :
  exists t : RichTable,
    df_to_table str
      {| df_columns := map fst main_columns; df_values := values |}
      [] false None (Some (map snd main_columns))
    = (Returned, t)
    /\ map (fun col => (header col, justify col)) (columns_of t)
       = [("quantity", "right"); ("name", "left"); ("expansion", "left");
          ("price", "right"); ("language", "center");
          ("foil", "center")]%string
    /\ rows_of t = map (map str) values.
Proof.
  eexists. split; [reflexivity |].
  rewrite add_rows_spec, columns_of_app, rows_of_app.
  match goal with
  | |- context [rows_of (map add_row ?rs)] =>
      destruct (rows_of_rows rs) as [-> ->]
  end.
  split; [reflexivity |].
  cbn [rows_of flat_map app df_values].
  generalize 0%nat. induction values as [| v values IH]; intros i.
  - reflexivity.
  - cbn [length seq combine map fst snd row_cells app]. now rewrite IH.
Qed.

(** ** The expansion table *)

Lemma find_app {A : Type} (f : A -> bool) (l1 l2 : list A) :
  List.find f (l1 ++ l2)
  = match List.find f l1 with
    | Some x => Some x
    | None => List.find f l2
    end.
Proof.
  induction l1 as [| x l1 IH]; [reflexivity |].
  cbn [app List.find]. now destruct (f x).
Qed.

Lemma find_filter {A : Type} (f g : A -> bool) (l : list A) :
  List.find f (List.filter g l) = List.find (fun x => f x && g x) l.
Proof.
  induction l as [| x l IH]; [reflexivity |].
  cbn [List.filter List.find]. destruct (g x) eqn:Hg.
  - cbn [List.find]. destruct (f x); cbn [andb]; [reflexivity | exact IH].
  - rewrite andb_false_r. exact IH.
Qed.

Lemma fold_left_insert_lookup (l : list Expansion)
    (d : gmap Z (string * string)) (id : Z) :
  fold_left (fun d exp => <[exp_id exp := (exp_name exp, exp_code exp)]> d)
    l d !! id
  = match List.find (fun exp => exp_id exp =? id) (rev l) with
    | Some exp => Some (exp_name exp, exp_code exp)
    | None => d !! id
    end.
Proof.
  revert d. induction l as [| exp l IH]; intros d; [reflexivity |].
  cbn [fold_left rev]. rewrite IH, find_app.
  destruct (List.find _ (rev l)); [reflexivity |].
  cbn [List.find]. rewrite lookup_insert.
  destruct (Z.eqb_spec (exp_id exp) id) as [Heq | Hne];
    destruct (decide (exp_id exp = id)); congruence.
Qed.

Lemma expansions_dict_lookup (expansions : list Expansion) (game_id id : Z) :
  expansions_dict expansions game_id !! id
  = option_map (fun exp => (exp_name exp, exp_code exp))
      (List.find
         (fun exp => (exp_id exp =? id) && (exp_game_id exp =? game_id))
         (rev expansions)).
Proof.
  unfold expansions_dict.
  rewrite fold_left_insert_lookup, <- filter_rev, find_filter.
  destruct (List.find _ (rev expansions)); [reflexivity | apply lookup_empty].
Qed.

(** X5: in the dictionary of [expansions_dict] an id leads to the name
    and code of the last expansion of the list that has this id and the
    requested game; an id is missing exactly when no expansion of that
    game has it, whatever expansions of other games there are. *)
Theorem expansions_dict_keeps_the_last_of_the_game
    (expansions : list Expansion) (game_id id : Z) :
  expansions_dict expansions game_id !! id
  = option_map (fun exp => (exp_name exp, exp_code exp))
      (List.find
         (fun exp => (exp_id exp =? id) && (exp_game_id exp =? game_id))
         (rev expansions))
  /\ (expansions_dict expansions game_id !! id = None <->
      forall exp : Expansion,
        In exp expansions -> exp_id exp = id -> exp_game_id exp <> game_id)
  /\ (forall (before after : list Expansion) (exp : Expansion),
         expansions = before ++ exp :: after ->
         exp_id exp = id ->
         exp_game_id exp = game_id ->
         (forall later : Expansion,
             In later after ->
             exp_id later = id -> exp_game_id later <> game_id) ->
         expansions_dict expansions game_id !! id
         = Some (exp_name exp, exp_code exp)).
Proof.
  split; [apply expansions_dict_lookup | split].
  - rewrite expansions_dict_lookup. split.
    + intros H exp Hin Hid Hgame.
      destruct (List.find _ (rev expansions)) eqn:Hfind; [discriminate H |].
      apply in_rev in Hin. apply (find_none _ _ Hfind exp) in Hin.
      apply andb_false_iff in Hin.
      destruct Hin as [Hin | Hin]; apply Z.eqb_neq in Hin; congruence.
    + intros H.
      destruct (List.find _ (rev expansions)) as [exp |] eqn:Hfind;
        [| reflexivity].
      apply find_some in Hfind. destruct Hfind as [Hin Hp].
      apply in_rev in Hin. apply andb_true_iff in Hp.
      destruct Hp as [Hid Hgame].
      apply Z.eqb_eq in Hid, Hgame. now destruct (H exp Hin Hid).
  - intros before after exp -> Hid Hgame Hlater.
    rewrite expansions_dict_lookup, rev_app_distr. cbn [rev].
    rewrite <- app_assoc, find_app.
    destruct (List.find _ (rev after)) as [later |] eqn:Hfind.
    + apply find_some in Hfind. destruct Hfind as [Hin Hp].
      apply in_rev in Hin. apply andb_true_iff in Hp.
      destruct Hp as [Hid' Hgame'].
      apply Z.eqb_eq in Hid', Hgame'. now destruct (Hlater later Hin Hid').
    + cbn [app List.find].
      apply Z.eqb_eq in Hid, Hgame. now rewrite Hid, Hgame.
Qed.

(** X6: [get_expansion] on the dictionary of game 1 sends exactly one
    blueprint request and prints nothing, however it ends.  It raises
    [HTTPError] when the request fails, [KeyError] when no expansion of
    game 1 has the id the request returned, and otherwise returns the
    name of the last expansion of game 1 with that id. *)
Theorem get_expansion_on_the_game_table (server : Server)
    (expansions : list Expansion) (blueprint : Z) (st : state) :
  get_expansion server (expansions_dict expansions 1) blueprint st
  = (match blueprint_json server blueprint with
     | None => inl (HTTPError (GET_blueprint blueprint))
     | Some expansion_id =>
         match
           List.find
             (fun exp =>
                (exp_id exp =? expansion_id) && (exp_game_id exp =? 1))
             (rev expansions)
         with
         | Some exp => inr (exp_name exp)
         | None => inl (KeyError_expansion expansion_id)
         end
     end,
     {| requests := requests st ++ [GET_blueprint blueprint];
        console := console st |}).
Proof.
  cbv [get_expansion bind get send ret raise].
  destruct (blueprint_json server blueprint) as [expansion_id |];
    [| reflexivity].
  rewrite expansions_dict_lookup.
  now destruct (List.find _ (rev expansions)).
Qed.

(** ** Runs that stop early *)

(** X7: when the request for the expansions fails, the run stops with
    its [HTTPError] after that one request; when the request for the
    collection fails, it stops with that [HTTPError] after the two
    requests.  In both cases nothing has been printed and no blueprint
    has been requested. *)
Theorem failed_fetch_stops_the_run (S : Argsort) (server : Server)
    (config_dict : ConfigDict) :
  expansions_json server = None \/ collection_json server = None ->
  main S server config_dict start
  = match expansions_json server with
    | None =>
        (inl (HTTPError GET_expansions),
         {| requests := [GET_expansions]; console := [] |})
    | Some _ =>
        (inl (HTTPError GET_collection),
         {| requests := [GET_expansions; GET_collection]; console := [] |})
    end.
Proof.
  intros H. cbv [main bind get send ret raise start requests console app].
  destruct (expansions_json server) as [expansions |]; [| reflexivity].
  destruct H as [H | H]; [discriminate H |].
  now rewrite H.
Qed.

Lemma failed_fetch_stops_the_run_witness :
  main stable_argsort
    {| expansions_json := Some [];
       collection_json := None;
       blueprint_json := fun _ => Some 7 |}
    (config_yaml 0 ["W"]%string) start
  = (inl (HTTPError GET_collection),
     {| requests := [GET_expansions; GET_collection]; console := [] |}).
Proof.
  apply (failed_fetch_stops_the_run stable_argsort
           {| expansions_json := Some [];
              collection_json := None;
              blueprint_json := fun _ => Some 7 |}
           (config_yaml 0 ["W"]%string)).
  right. reflexivity.
Defined.

(** X8: when normalisation raises, the run stops there with that
    exception: the two fetches have been made, the line counting the
    records has been printed, and no table, no blueprint request and no
    line of totals follows. *)
Theorem failed_normalisation_stops_the_run (S : Argsort) (server : Server)
    (config_dict : ConfigDict) (expansions : list Expansion)
    (data : list RawRecord) (e : exn) :
  expansions_json server = Some expansions ->
  collection_json server = Some data ->
  normalize S data = inl e ->
  exists st : state,
    main S server config_dict start = (inl e, st)
    /\ requests st = [GET_expansions; GET_collection]
    /\ console st = [Reading (length data)]
    /\ tables st = []
    /\ lookups st = []
    /\ grand_total st = None.
Proof.
  intros Hexp Hdata Hnorm.
  exists {| requests := [GET_expansions; GET_collection];
            console := [Reading (length data)] |}.
  split; [| repeat split].
  now apply (main_raises_in_normalize S server config_dict expansions).
Qed.

Lemma failed_normalisation_stops_the_run_witness :
  exists st : state,
    main stable_argsort
      (cardtrader [card 1 (Some 500) None None; card 2 (Some 100) None None])
      (config_yaml 0 ["W"]%string) start
    = (inl (KeyError "properties_hash.mtg_card_colors"), st)
    /\ requests st = [GET_expansions; GET_collection]
    /\ console st
       = [Reading
            (length
               [card 1 (Some 500) None None; card 2 (Some 100) None None])]
    /\ tables st = []
    /\ lookups st = []
    /\ grand_total st = None.
Proof.
  apply (failed_normalisation_stops_the_run stable_argsort
           (cardtrader
              [card 1 (Some 500) None None; card 2 (Some 100) None None])
           (config_yaml 0 ["W"]%string)
           [{| exp_id := 7; exp_name := "Alpha"; exp_code := "lea";
               exp_game_id := 1 |}]
           [card 1 (Some 500) None None; card 2 (Some 100) None None]);
    reflexivity.
Defined.

(** ** Runs that stop at a lookup *)

Lemma bind_inl {A B : Type} (m : M A) (k : A -> M B) (st st' : state)
    (e : exn) :
  bind m k st = (inl e, st') ->
  m st = (inl e, st')
  \/ exists (a : A) (st1 : state), m st = (inr a, st1) /\ k a st1 = (inl e, st').
Proof.
  unfold bind. destruct (m st) as [[e0 | a] st1]; intros H.
  - left. injection H as -> ->. reflexivity.
  - right. now exists a, st1.
Qed.

Lemma get_expansion_inl (server : Server)
    (expansions : gmap Z (string * string)) (id : Z) (st st' : state)
    (e : exn) :
  get_expansion server expansions id st = (inl e, st') ->
  st' = {| requests := requests st ++ [GET_blueprint id];
           console := console st |}
  /\ fails server expansions id e.
Proof.
  cbv [get_expansion bind get send ret raise fails].
  destruct (blueprint_json server id) as [expansion_id |].
  - destruct (expansions !! expansion_id) as [exp |] eqn:Hexp; intros H.
    + discriminate H.
    + injection H as <- <-. split; [reflexivity |]. right.
      now exists expansion_id.
  - intros H. injection H as <- <-. split; [reflexivity |]. now left.
Qed.

Lemma apply_get_expansion_ids_inr (server : Server)
    (expansions : gmap Z (string * string)) (ids : list Z) (st st' : state)
    (names : list string) :
  apply (get_expansion server expansions) ids st = (inr names, st') ->
  st' = {| requests := requests st ++ map GET_blueprint ids;
           console := console st |}.
Proof.
  revert st names. induction ids as [| id ids IH]; intros st names H.
  - cbn in H. apply ret_inr in H. destruct H as [_ ->].
    cbn. rewrite app_nil_r. now destruct st.
  - cbn [apply] in H.
    apply bind_inr in H. destruct H as [shown [st1 [Hone H]]].
    apply bind_inr in H. destruct H as [ys [st2 [Hrest H]]].
    apply ret_inr in H. destruct H as [_ ->].
    apply get_expansion_inr in Hone. destruct Hone as [-> _].
    apply IH in Hrest. subst st2.
    cbn [requests console map]. now rewrite <- app_assoc.
Qed.

Lemma apply_get_expansion_inl (server : Server)
    (expansions : gmap Z (string * string)) (ids : list Z) (st st' : state)
    (e : exn) :
  apply (get_expansion server expansions) ids st = (inl e, st') ->
  exists (tried : list Z) (id : Z) (later : list Z),
    ids = tried ++ id :: later
    /\ st' = {| requests := requests st ++ map GET_blueprint (tried ++ [id]);
                console := console st |}
    /\ fails server expansions id e.
Proof.
  revert st. induction ids as [| id ids IH]; intros st H.
  - discriminate H.
  - cbn [apply] in H. apply bind_inl in H.
    destruct H as [H | [shown [st1 [Hone H]]]].
    + apply get_expansion_inl in H. destruct H as [-> Hfail].
      exists [], id, ids. repeat split; assumption.
    + apply get_expansion_inr in Hone. destruct Hone as [-> _].
      apply bind_inl in H. destruct H as [H | [ys [st2 [_ H]]]];
        [| discriminate H].
      apply IH in H. destruct H as [tried [id' [later [-> [-> Hfail]]]]].
      exists (id :: tried), id', later.
      cbn [requests console map app]. rewrite <- app_assoc.
      repeat split; assumption.
Qed.

Lemma report_color_inl (server : Server)
    (expansions : gmap Z (string * string)) (price_thresh : Z)
    (data_pd : list Row) (totals : nat * float) (color : Color)
    (st st' : state) (e : exn) :
  report_color server expansions price_thresh data_pd totals color st
    = (inl e, st') ->
  exists (tried : list Z) (id : Z) (later : list Z),
    map blueprint_id (query color price_thresh data_pd)
    = tried ++ id :: later
    /\ st' = {| requests := requests st ++ map GET_blueprint (tried ++ [id]);
                console := console st |}
    /\ fails server expansions id e.
Proof.
  unfold report_color. intros H. apply bind_inl in H.
  destruct H as [H | [expansion [st1 [_ H]]]].
  - now apply apply_get_expansion_inl in H.
  - apply bind_inl in H. destruct H as [H | [u [st2 [_ H]]]];
      discriminate H.
Qed.

Lemma for_each_report_color_inl (server : Server)
    (expansions : gmap Z (string * string)) (price_thresh : Z)
    (data_pd : list Row) (colors : list Color) (totals : nat * float)
    (st st' : state) (e : exn) :
  for_each (report_color server expansions price_thresh data_pd) totals
    colors st = (inl e, st') ->
  exists (done : list Color) (color : Color) (rest : list Color)
         (ts : list Table) (tried : list Z) (id : Z) (later : list Z),
    colors = done ++ color :: rest
    /\ Forall2 (table_of server expansions price_thresh data_pd) done ts
    /\ map blueprint_id (query color price_thresh data_pd)
       = tried ++ id :: later
    /\ st' = {| requests :=
                  requests st
                  ++ map GET_blueprint (blueprints_of ts ++ tried ++ [id]);
                console := console st ++ map Printed ts |}
    /\ fails server expansions id e.
Proof.
  revert totals st.
  induction colors as [| color colors IH]; intros totals st H.
  - discriminate H.
  - cbn [for_each] in H. apply bind_inl in H.
    destruct H as [H | [totals1 [st1 [Hbody H]]]].
    + apply report_color_inl in H.
      destruct H as [tried [id [later [Hq [-> Hfail]]]]].
      exists [], color, colors, [], tried, id, later.
      cbn [app map blueprints_of concat]. rewrite app_nil_r.
      repeat split; try assumption. constructor.
    + apply report_color_inr in Hbody.
      destruct Hbody as [table [Htable [-> _]]].
      apply IH in H.
      destruct H as [done [c [rest [ts [tried [id [later H]]]]]]].
      destruct H as [-> [Hts [Hq [-> Hfail]]]].
      exists (color :: done), c, rest, (table :: ts), tried, id, later.
      repeat split; try assumption.
      * constructor; assumption.
      * cbn [requests console map app]. unfold blueprints_of.
        cbn [map concat]. rewrite app_nil_r, !map_app, <- !app_assoc.
        reflexivity.
Qed.

Lemma main_inl (S : Argsort) (server : Server) (config_dict : ConfigDict)
    (expansions : list Expansion) (data : list RawRecord)
    (data_pd : list Row) (st : state) (e : exn) :
  expansions_json server = Some expansions ->
  collection_json server = Some data ->
  normalize S data = inr data_pd ->
  main S server config_dict start = (inl e, st) ->
  exists (done : list Color) (color : Color) (rest : list Color)
         (ts : list Table) (tried : list Z) (id : Z) (later : list Z),
    colors (get_config config_dict) = done ++ color :: rest
    /\ Forall2
         (table_of server (expansions_dict expansions 1)
            (yaml_price_cents_threshold config_dict) data_pd)
         done ts
    /\ map blueprint_id
         (query color (yaml_price_cents_threshold config_dict) data_pd)
       = tried ++ id :: later
    /\ st = {| requests :=
                 GET_expansions :: GET_collection
                   :: map GET_blueprint (blueprints_of ts ++ tried ++ [id]);
               console := Reading (length data) :: map Printed ts |}
    /\ fails server (expansions_dict expansions 1) id e.
Proof.
  intros Hexp Hdata Hnorm H.
  cbv [main bind get send ret raise lift start print] in H.
  rewrite Hexp, Hdata, Hnorm in H. cbn [requests console app] in H.
  destruct (for_each _ _ _ _) as [[e0 | totals] st1] eqn:Hloop;
    [| discriminate H].
  injection H as -> ->.
  apply for_each_report_color_inl in Hloop.
  destruct Hloop as [done [c [rest [ts [tried [id [later Hl]]]]]]].
  destruct Hl as [Hcolors [Hts [Hq [-> Hfail]]]].
  exists done, c, rest, ts, tried, id, later.
  cbn [requests console app price_cents_threshold get_config] in *.
  repeat split; assumption.
Qed.

Lemma tables_of_printed (n : nat) (ts : list Table) :
  flat_map (fun o => match o with Printed t => [t] | _ => [] end)
    (Reading n :: map Printed ts) = ts.
Proof.
  cbn [flat_map app]. induction ts as [| t ts IH]; [reflexivity |].
  cbn [map flat_map app]. now rewrite IH.
Qed.

Lemma last_printed_is_no_total (n : nat) (ts : list Table) :
  match List.last (Reading n :: map Printed ts) (Reading 0) with
  | Total _ _ => False
  | _ => True
  end.
Proof.
  destruct ts as [| t ts] using rev_ind; [exact I |].
  rewrite map_app. cbn [map].
  change (Reading n :: map Printed ts ++ [Printed t])
    with ((Reading n :: map Printed ts) ++ [Printed t]).
  now rewrite last_last.
Qed.

(** X9: when a blueprint lookup raises, the run stops at that row.  The
    tables of the colours before the failing one have been printed in
    full and stay printed; the table of the failing colour and the line
    of the totals are not printed; the failing request is the last one
    sent, after one request for each row already handled. *)
Theorem failed_lookup_stops_the_run (S : Argsort) (server : Server)
    (config_dict : ConfigDict) (expansions : list Expansion)
    (data : list RawRecord) (data_pd : list Row) (st : state) (e : exn) :
  expansions_json server = Some expansions ->
  collection_json server = Some data ->
  normalize S data = inr data_pd ->
  main S server config_dict start = (inl e, st) ->
  exists (done : list Color) (color : Color) (rest : list Color)
         (tried : list Z) (id : Z) (later : list Z),
    colors (get_config config_dict) = done ++ color :: rest
    /\ Forall2
         (table_of server (expansions_dict expansions 1)
            (yaml_price_cents_threshold config_dict) data_pd)
         done (tables st)
    /\ console st = Reading (length data) :: map Printed (tables st)
    /\ grand_total st = None
    /\ map blueprint_id
         (query color (yaml_price_cents_threshold config_dict) data_pd)
       = tried ++ id :: later
    /\ lookups st = blueprints_of (tables st) ++ tried ++ [id]
    /\ fails server (expansions_dict expansions 1) id e.
Proof.
  intros Hexp Hdata Hnorm H.
  apply (main_inl S server config_dict expansions data data_pd st e Hexp
           Hdata Hnorm) in H.
  destruct H as [done [color [rest [ts [tried [id [later H]]]]]]].
  destruct H as [Hcolors [Hts [Hq [-> Hfail]]]].
  assert (Htables :
            tables
              {| requests :=
                   GET_expansions :: GET_collection
                     :: map GET_blueprint (blueprints_of ts ++ tried ++ [id]);
                 console := Reading (length data) :: map Printed ts |} = ts).
  { unfold tables. cbn [console]. apply tables_of_printed. }
  exists done, color, rest, tried, id, later. rewrite Htables.
  repeat split; try assumption.
  - unfold grand_total. cbn [console].
    pose proof (last_printed_is_no_total (length data) ts) as Hlast.
    destruct (List.last _ _); [reflexivity | reflexivity | destruct Hlast].
  - unfold lookups. cbn [requests flat_map app]. apply lookups_blueprints.
Qed.

Lemma failed_lookup_stops_the_run_witness :
  exists (done : list Color) (color : Color) (rest : list Color)
         (tried : list Z) (id : Z) (later : list Z),
    lookups (final (main stable_argsort flaky_cardtrader
                      (config_yaml 0 ["W"; "U"; "B"]%string) start))
    = [1; 2; 3]
    /\ colors (get_config (config_yaml 0 ["W"; "U"; "B"]%string))
       = done ++ color :: rest
    /\ Forall2
         (table_of flaky_cardtrader (expansions_dict one_expansion 1) 0
            (map finish_row (json_normalize four_cards)))
         done
         (tables (final (main stable_argsort flaky_cardtrader
                           (config_yaml 0 ["W"; "U"; "B"]%string) start)))
    /\ console (final (main stable_argsort flaky_cardtrader
                         (config_yaml 0 ["W"; "U"; "B"]%string) start))
       = Reading (length four_cards)
           :: map Printed
                (tables (final (main stable_argsort flaky_cardtrader
                                  (config_yaml 0 ["W"; "U"; "B"]%string)
                                  start)))
    /\ grand_total (final (main stable_argsort flaky_cardtrader
                             (config_yaml 0 ["W"; "U"; "B"]%string) start))
       = None
    /\ map blueprint_id
         (query color 0 (map finish_row (json_normalize four_cards)))
       = tried ++ id :: later
    /\ lookups (final (main stable_argsort flaky_cardtrader
                         (config_yaml 0 ["W"; "U"; "B"]%string) start))
       = blueprints_of
           (tables (final (main stable_argsort flaky_cardtrader
                             (config_yaml 0 ["W"; "U"; "B"]%string) start)))
           ++ tried ++ [id]
    /\ fails flaky_cardtrader (expansions_dict one_expansion 1) id
         (HTTPError (GET_blueprint 3)).
Proof.
  destruct (failed_lookup_stops_the_run stable_argsort flaky_cardtrader
              (config_yaml 0 ["W"; "U"; "B"]%string) one_expansion four_cards
              (map finish_row (json_normalize four_cards))
              (final (main stable_argsort flaky_cardtrader
                        (config_yaml 0 ["W"; "U"; "B"]%string) start))
              (HTTPError (GET_blueprint 3)))
    as [done [color [rest [tried [id [later H]]]]]].
  - reflexivity.
  - reflexivity.
  - vm_compute. reflexivity.
  - vm_compute. reflexivity.
  - exists done, color, rest, tried, id, later.
    split; [vm_compute; reflexivity | exact H].
Defined.

(** ** Runs that complete *)

Lemma Forall2_table_of_color (server : Server)
    (expansions : gmap Z (string * string)) (price_thresh : Z)
    (data_pd : list Row) (colors : list Color) (ts : list Table)
    (color : Color) :
  Forall2 (table_of server expansions price_thresh data_pd) colors ts ->
  In color colors ->
  exists t : Table,
    In t ts /\ table_of server expansions price_thresh data_pd color t.
Proof.
  induction 1 as [| c t colors ts Ht _ IH]; intros Hin; [destruct Hin |].
  destruct Hin as [-> | Hin].
  - exists t. split; [now left | exact Ht].
  - destruct (IH Hin) as [t' [Hin' Ht']]. exists t'. split; [now right | exact Ht'].
Qed.

Lemma fails_not_resolves (server : Server)
    (expansions : gmap Z (string * string)) (id : Z) (e : exn) :
  fails server expansions id e -> ~ resolves server expansions id.
Proof.
  intros [[Hnone _] | [eid [Hsome [Hmiss _]]]] [eid' [exp [Hid Hexp]]].
  - rewrite Hnone in Hid. discriminate Hid.
  - rewrite Hsome in Hid. injection Hid as <-.
    rewrite Hmiss in Hexp. discriminate Hexp.
Qed.

(** X10: once the two fetches and the normalisation have succeeded, the
    run completes exactly when every row selected for an enabled colour
    has a blueprint that resolves: its request succeeds and the expansion
    it names is in the table of game 1.  Rows that no enabled colour
    selects need not resolve. *)
Theorem run_completes_iff_selected_rows_resolve (S : Argsort)
    (server : Server) (config_dict : ConfigDict)
    (expansions : list Expansion) (data : list RawRecord)
    (data_pd : list Row) :
  expansions_json server = Some expansions ->
  collection_json server = Some data ->
  normalize S data = inr data_pd ->
  (exists st : state, main S server config_dict start = (inr tt, st)) <->
  forall (color : Color) (r : Row),
    In color (colors (get_config config_dict)) ->
    In r (query color (yaml_price_cents_threshold config_dict) data_pd) ->
    resolves server (expansions_dict expansions 1) (blueprint_id r).
Proof.
  intros Hexp Hdata Hnorm. split.
  - intros [st Hmain] color r Hcolor Hr.
    apply main_tables in Hmain.
    destruct Hmain as [expansions' [data' [data_pd' H]]].
    destruct H as [Hexp' [Hdata' [Hnorm' [Hts _]]]].
    rewrite Hexp in Hexp'. injection Hexp' as <-.
    rewrite Hdata in Hdata'. injection Hdata' as <-.
    rewrite Hnorm in Hnorm'. injection Hnorm' as <-.
    destruct (Forall2_table_of_color _ _ _ _ _ _ color Hts Hcolor)
      as [t [_ Ht]].
    destruct Ht as [_ [_ [Hrows [_ [_ Hres]]]]].
    rewrite <- Hrows in Hr. apply in_map_iff in Hr.
    destruct Hr as [re [<- Hre]].
    rewrite List.Forall_forall in Hres. apply Hres in Hre.
    destruct Hre as [eid [exp [Hid [Hexp' _]]]]. now exists eid, exp.
  - intros Hall.
    destruct (main S server config_dict start) as [[e | []] st] eqn:Hmain.
    + exfalso.
      apply (main_inl S server config_dict expansions data data_pd st e
               Hexp Hdata Hnorm) in Hmain.
      destruct Hmain as [done [color [rest [ts [tried [id [later H]]]]]]].
      destruct H as [Hcolors [_ [Hq [_ Hfail]]]].
      apply fails_not_resolves in Hfail. apply Hfail.
      assert (Hid : In id
                      (map blueprint_id
                         (query color
                            (yaml_price_cents_threshold config_dict)
                            data_pd))).
      { rewrite Hq. apply in_or_app. right. now left. }
      apply in_map_iff in Hid. destruct Hid as [r [<- Hr]].
      apply (Hall color r); [| exact Hr].
      rewrite Hcolors. apply in_or_app. right. now left.
    + now exists st.
Qed.

Lemma run_completes_iff_selected_rows_resolve_witness :
  (exists st : state,
      main stable_argsort flaky_cardtrader (config_yaml 0 ["W"]%string) start
      = (inr tt, st))
  <->
  forall (color : Color) (r : Row),
    In color (colors (get_config (config_yaml 0 ["W"]%string))) ->
    In r (query color 0 (map finish_row (json_normalize four_cards))) ->
    resolves flaky_cardtrader (expansions_dict one_expansion 1)
      (blueprint_id r).
Proof.
  apply (run_completes_iff_selected_rows_resolve stable_argsort
           flaky_cardtrader (config_yaml 0 ["W"]%string) one_expansion
           four_cards (map finish_row (json_normalize four_cards))).
  - reflexivity.
  - reflexivity.
  - vm_compute. reflexivity.
Defined.

(** The server fails on blueprint 3, a blue card: with white alone
    enabled the run completes, with blue enabled it does not. *)
Example white_alone_completes_on_the_flaky_server :
  fst (main stable_argsort flaky_cardtrader (config_yaml 0 ["W"]%string)
         start) = inr tt
  /\ fst (main stable_argsort flaky_cardtrader (config_yaml 0 ["U"]%string)
            start) = inl (HTTPError (GET_blueprint 3)).
Proof. split; vm_compute; reflexivity. Qed.

(** ** Which table a row is printed in *)

Lemma price_ge_of_selects (color : Color) (price_thresh : Z) (r : Row) :
  selects color price_thresh r = true ->
  price_ge (price_cents r) price_thresh = true.
Proof.
  unfold selects. destruct (is_MULTICOLOR color); intros H;
    apply andb_true_iff in H; apply H.
Qed.

(** X11: whatever the configuration enables, a row is printed in a
    table exactly when it is a row of the normalised frame, its price
    reaches the threshold and the table is the one of its category; so no
    row is printed in two tables of different colours, and a row whose
    category is not enabled is printed nowhere. *)
Theorem row_is_printed_in_the_table_of_its_category (S : Argsort)
    (server : Server) (config_dict : ConfigDict) (st : state)
    (data : list RawRecord) (data_pd : list Row) :
  main S server config_dict start = (inr tt, st) ->
  collection_json server = Some data ->
  normalize S data = inr data_pd ->
  (forall (t : Table) (r : Row),
      In t (tables st) ->
      In r (map fst (rows t)) <->
      In r data_pd
      /\ price_ge (price_cents r) (yaml_price_cents_threshold config_dict)
         = true
      /\ title_color t = category_of r)
  /\ (forall r : Row,
         (exists t : Table, In t (tables st) /\ In r (map fst (rows t))) <->
         In r data_pd
         /\ price_ge (price_cents r) (yaml_price_cents_threshold config_dict)
            = true
         /\ In (code (category_of r)) (yaml_colors config_dict)).
Proof.
  intros Hmain Hdata Hnorm.
  apply main_tables in Hmain.
  destruct Hmain as [expansions [data' [data_pd' H]]].
  destruct H as [_ [Hdata' [Hnorm' [Hts _]]]].
  rewrite Hdata in Hdata'. injection Hdata' as <-.
  rewrite Hnorm in Hnorm'. injection Hnorm' as <-.
  assert (Hone : forall (t : Table) (r : Row),
             In t (tables st) ->
             In r (map fst (rows t)) <->
             In r data_pd
             /\ price_ge (price_cents r)
                  (yaml_price_cents_threshold config_dict) = true
             /\ title_color t = category_of r).
  { intros t r Ht.
    apply (Forall2_table_in _ _ _ _ _ _ t) in Hts; [| exact Ht].
    destruct Hts as [_ [_ [Hrows _]]].
    rewrite Hrows. unfold query. rewrite filter_In. split.
    - intros [Hin Hsel]. pose proof (price_ge_of_selects _ _ _ Hsel) as Hge.
      repeat split; [exact Hin | exact Hge |].
      now apply (category_of_selects _ _ _ Hge).
    - intros [Hin [Hge Htitle]]. split; [exact Hin |].
      now apply (category_of_selects _ _ _ Hge). }
  split; [exact Hone |].
  intros r. split.
  - intros [t [Ht Hr]]. apply (Hone t r Ht) in Hr.
    destruct Hr as [Hin [Hge Htitle]]. repeat split; [exact Hin | exact Hge |].
    rewrite <- Htitle.
    apply (Forall2_table_titles) in Hts.
    assert (Hc : In (title_color t) (colors (get_config config_dict))).
    { rewrite <- Hts. now apply in_map. }
    unfold get_config in Hc. cbn [colors] in Hc.
    apply filter_In in Hc. now apply str_in_In.
  - intros [Hin [Hge Hcode]].
    assert (Hc : In (category_of r) (colors (get_config config_dict))).
    { unfold get_config. cbn [colors]. apply filter_In.
      split; [apply list_Color_complete | now apply str_in_In]. }
    destruct (Forall2_table_of_color _ _ _ _ _ _ _ Hts Hc) as [t [Ht Htab]].
    exists t. split; [exact Ht |].
    apply (Hone t r Ht). repeat split; [exact Hin | exact Hge |].
    now destruct Htab as [-> _].
Qed.

Lemma row_is_printed_in_the_table_of_its_category_witness :
  exists (st : state) (data_pd : list Row),
    main stable_argsort (cardtrader four_cards)
      (config_yaml 300 ["W"; "U"]%string) start = (inr tt, st)
    /\ rows_by_index st = [(WHITE, [0%nat]); (BLUE, [1; 2]%nat)]
    /\ (forall (t : Table) (r : Row),
           In t (tables st) ->
           In r (map fst (rows t)) <->
           In r data_pd
           /\ price_ge (price_cents r) 300 = true
           /\ title_color t = category_of r)
    /\ (forall r : Row,
           (exists t : Table, In t (tables st) /\ In r (map fst (rows t)))
           <->
           In r data_pd
           /\ price_ge (price_cents r) 300 = true
           /\ In (code (category_of r)) ["W"; "U"]%string).
Proof.
  eexists. eexists. split; [vm_compute; reflexivity |].
  split; [reflexivity |].
  apply (row_is_printed_in_the_table_of_its_category stable_argsort
           (cardtrader four_cards) (config_yaml 300 ["W"; "U"]%string) _
           four_cards).
  - vm_compute. reflexivity.
  - reflexivity.
  - vm_compute. reflexivity.
Defined.

(** ** Totals over all eight tables *)






Lemma Forall2_table_captions (server : Server)
    (expansions : gmap Z (string * string)) (price_thresh : Z)
    (data_pd : list Row) (colors : list Color) (ts : list Table) :
  Forall2 (table_of server expansions price_thresh data_pd) colors ts ->
  map caption_items ts
  = map (fun color => length (query color price_thresh data_pd)) colors
  /\ map caption_cents ts
     = map (fun color => sum_price_cents (query color price_thresh data_pd))
         colors
  /\ blueprints_of ts
     = concat
         (map
            (fun color =>
               map blueprint_id (query color price_thresh data_pd))
            colors).
Proof.
  induction 1 as [| color t colors ts Ht _ [IH1 [IH2 IH3]]];
    [repeat split |].
  destruct Ht as [_ [_ [Hrows [Hitems [Hcents _]]]]].
  unfold blueprints_of in *. cbn [map concat].
  rewrite IH1, IH2, IH3, Hitems, Hcents, <- Hrows, length_map, map_map.
  repeat split.
Qed.




Lemma length_concat_map {A B : Type} (f : A -> list B) (l : list A) :
  length (concat (map f l)) = list_sum (map (fun x => length (f x)) l).
Proof.
  induction l as [| x l IH]; [reflexivity |].
  cbn [map concat list_sum fold_right]. rewrite length_app, IH. reflexivity.
Qed.

(** X13: a run that completes has fetched the expansions once, then the
    collection once, and after them only blueprints, one for each item
    counted: the number of blueprint requests is the item total of the
    last line. *)
Theorem one_request_per_counted_item (S : Argsort) (server : Server)
    (config_dict : ConfigDict) (st : state) :
  main S server config_dict start = (inr tt, st) ->
  requests st
  = GET_expansions :: GET_collection :: map GET_blueprint (lookups st)
  /\ length (lookups st) = list_sum (map caption_items (tables st))
  /\ exists total_value : float,
       grand_total st = Some (length (lookups st), total_value).
Proof.
  intros Hmain. pose proof Hmain as Hinr.
  apply main_inr in Hinr.
  destruct Hinr as [expansions0 [data0 [data_pd0 [ts0 H0]]]].
  destruct H0 as [_ [_ [_ [_ [Hreq Hcon0]]]]].
  assert (Hts0 : tables st = ts0).
  { unfold tables. rewrite Hcon0. cbn [flat_map app].
    apply tables_printed. intros t Ht. discriminate Ht. }
  apply main_tables in Hmain.
  destruct Hmain as [expansions [data [data_pd H]]].
  destruct H as [_ [_ [_ [Hts [Hlook Hcon]]]]].
  assert (Hlen : length (lookups st)
                 = list_sum (map caption_items (tables st))).
  { apply Forall2_table_captions in Hts.
    destruct Hts as [Hitems [_ Hbp]].
    rewrite Hlook, Hbp, Hitems, length_concat_map.
    f_equal. apply map_ext. intros color. apply length_map. }
  split; [| split; [exact Hlen |]].
  - rewrite Hreq, Hlook, Hts0. reflexivity.
  - eexists. unfold grand_total. rewrite Hcon.
    change (Reading (length data) :: map Printed (tables st) ++ [?x])
      with ((Reading (length data) :: map Printed (tables st)) ++ [x]).
    rewrite last_last, items_after_sum, Hlen. reflexivity.
Qed.

Lemma one_request_per_counted_item_witness :
  exists st : state,
    main stable_argsort (cardtrader four_cards)
      (config_yaml 300 ["W"; "U"]%string) start = (inr tt, st)
    /\ lookups st = [1; 2; 3]
    /\ requests st
       = GET_expansions :: GET_collection :: map GET_blueprint (lookups st)
    /\ length (lookups st) = list_sum (map caption_items (tables st))
    /\ exists total_value : float,
         grand_total st = Some (length (lookups st), total_value).
Proof.
  eexists. split; [vm_compute; reflexivity |].
  split; [reflexivity |].
  apply (one_request_per_counted_item stable_argsort (cardtrader four_cards)
           (config_yaml 300 ["W"; "U"]%string)).
  vm_compute. reflexivity.
Defined.

(** ** What normalisation keeps *)

Lemma Permutation_filter {A : Type} (f : A -> bool) (l l' : list A) :
  Permutation l l' -> Permutation (List.filter f l) (List.filter f l').
Proof.
  induction 1 as [| x l l' _ IH | x y l | l l' l'' _ IH1 _ IH2].
  - constructor.
  - cbn [List.filter]. destruct (f x); [now constructor | exact IH].
  - cbn [List.filter]. destruct (f x), (f y);
      try apply Permutation_refl. constructor.
  - now transitivity (List.filter f l').
Qed.

Lemma NoDup_map_fst_filter {A B : Type} (f : A * B -> bool)
    (l : list (A * B)) :
  List.NoDup (map fst l) -> List.NoDup (map fst (List.filter f l)).
Proof.
  induction l as [| x l IH]; intros H; [constructor |].
  cbn [map] in H. apply List.NoDup_cons_iff in H. destruct H as [Hx Hl].
  cbn [List.filter]. destruct (f x); [| now apply IH].
  cbn [map]. constructor; [| now apply IH].
  intros Hin. apply Hx. apply in_map_iff in Hin.
  destruct Hin as [y [Hy Hin]]. apply filter_In in Hin.
  rewrite <- Hy. apply in_map, Hin.
Qed.

Lemma json_normalize_fst (data : list RawRecord) :
  map fst (json_normalize data) = seq 0 (length data).
Proof.
  unfold json_normalize. generalize 0%nat.
  induction data as [| record data IH]; intros s; [reflexivity |].
  cbn [length seq combine map fst]. now rewrite IH.
Qed.

Lemma dropna_json_normalize_length (data : list RawRecord) :
  length (dropna (json_normalize data))
  = length
      (List.filter (fun record => notna (raw_mtg_card_colors record)) data).
Proof.
  unfold dropna, json_normalize. generalize 0%nat.
  induction data as [| record data IH]; intros s; [reflexivity |].
  cbn [length seq combine List.filter snd].
  destruct (notna (raw_mtg_card_colors record)); cbn [length];
    now rewrite IH.
Qed.

(** X14: normalisation neither repeats nor loses a record that carries
    colours: the index labels of the frame are pairwise distinct, and the
    frame has as many rows as the export has records with colours (so
    also the records without a price are still there). *)
Theorem normalisation_keeps_each_coloured_record_once (S : Argsort)
    (data : list RawRecord) (data_pd : list Row) :
  normalize S data = inr data_pd ->
  List.NoDup (map index data_pd)
  /\ length data_pd
     = length
         (List.filter (fun record => notna (raw_mtg_card_colors record))
            data)
  /\ (length data_pd <= length data)%nat.
Proof.
  intros H. apply normalize_inr in H. destruct H as [_ [_ [_ ->]]].
  assert (Hperm : Permutation (dropna (sort_values S (json_normalize data)))
                    (dropna (json_normalize data))).
  { apply Permutation_filter, sort_values_Permutation. }
  assert (Hlen : length
                   (map finish_row
                      (dropna (sort_values S (json_normalize data))))
                 = length
                     (List.filter
                        (fun record => notna (raw_mtg_card_colors record))
                        data)).
  { rewrite length_map, (Permutation_length Hperm).
    apply dropna_json_normalize_length. }
  split; [| split; [exact Hlen |]].
  - rewrite map_map. cbn [index finish_row].
    apply (Permutation_NoDup
             (l := map fst (dropna (json_normalize data)))).
    + symmetry. now apply Permutation_map.
    + apply NoDup_map_fst_filter. rewrite json_normalize_fst.
      apply seq_NoDup.
  - rewrite Hlen. apply filter_length_le.
Qed.

Lemma normalisation_keeps_each_coloured_record_once_witness :
  exists data_pd : list Row,
    normalize stable_argsort
      [card 1 (Some 200) (Some false) (Some "W"%string);
       card 2 None (Some false) (Some "W"%string);
       card 3 (Some 500) (Some true) None;
       card 4 (Some 200) None (Some "W"%string)] = inr data_pd
    /\ List.NoDup (map index data_pd)
    /\ length data_pd
       = length
           (List.filter (fun record => notna (raw_mtg_card_colors record))
              [card 1 (Some 200) (Some false) (Some "W"%string);
               card 2 None (Some false) (Some "W"%string);
               card 3 (Some 500) (Some true) None;
               card 4 (Some 200) None (Some "W"%string)])
    /\ (length data_pd <= 4)%nat.
Proof.
  eexists. split; [vm_compute; reflexivity |].
  apply (normalisation_keeps_each_coloured_record_once stable_argsort
           [card 1 (Some 200) (Some false) (Some "W"%string);
            card 2 None (Some false) (Some "W"%string);
            card 3 (Some 500) (Some true) None;
            card 4 (Some 200) None (Some "W"%string)]).
  vm_compute. reflexivity.
Defined.

Lemma upper_ascii_idempotent (c : ascii) :
  upper_ascii (upper_ascii c) = upper_ascii c.
Proof. destruct c as [[] [] [] [] [] [] [] []]; reflexivity. Qed.

Lemma upper_idempotent (s : string) : upper (upper s) = upper s.
Proof.
  induction s as [| c s IH]; [reflexivity |].
  cbn [upper]. now rewrite upper_ascii_idempotent, IH.
Qed.

Lemma upper_length (s : string) : String.length (upper s) = String.length s.
Proof.
  induction s as [| c s IH]; [reflexivity |].
  cbn [upper String.length]. now rewrite IH.
Qed.

Lemma upper_ascii_is_ascii (c : ascii) :
  (nat_of_ascii c <? 128)%nat = true ->
  (nat_of_ascii (upper_ascii c) <? 128)%nat = true.
Proof. destruct c as [[] [] [] [] [] [] [] []]; intros H; exact H || reflexivity. Qed.

Lemma upper_is_ascii (s : string) :
  is_ascii s = true -> is_ascii (upper s) = true.
Proof.
  induction s as [| c s IH]; [reflexivity |].
  cbn [is_ascii upper]. rewrite !andb_true_iff. intros [Hc Hs].
  split; [now apply upper_ascii_is_ascii | now apply IH].
Qed.

Lemma ascii_colours_In (data : list RawRecord) (record : RawRecord)
    (colours : string) :
  ascii_colours data = true ->
  In record data ->
  raw_mtg_card_colors record = Some colours ->
  is_ascii colours = true.
Proof.
  unfold ascii_colours. rewrite forallb_forall. intros Hall Hin Hc.
  specialize (Hall record Hin). now rewrite Hc in Hall.
Qed.

(** X15: when the colours of the export are ASCII strings, the colours
    of a row of the frame are the upper-case form of the colours of its
    record: an ASCII string of the same length in which a to z have become
    A to Z, unchanged by a second upper-casing, so that two records whose
    colours differ only in the case of their letters are classified
    alike. *)
Theorem colours_are_upper_cased (S : Argsort) (data : list RawRecord)
    (data_pd : list Row) :
  normalize S data = inr data_pd ->
  ascii_colours data = true ->
  forall r : Row,
    In r data_pd ->
    exists (record : RawRecord) (colours : string),
      nth_error data (index r) = Some record
      /\ raw_mtg_card_colors record = Some colours
      /\ is_ascii colours = true
      /\ mtg_card_colors r = Some (upper colours)
      /\ is_ascii (upper colours) = true
      /\ upper (upper colours) = upper colours
      /\ String.length (upper colours) = String.length colours
      /\ forall r' : Row,
           In r' data_pd ->
           (exists (record' : RawRecord) (colours' : string),
               nth_error data (index r') = Some record'
               /\ raw_mtg_card_colors record' = Some colours'
               /\ upper colours' = upper colours) ->
           category_of r' = category_of r.
Proof.
  intros Hnorm Hascii r Hr.
  apply (normalize_rows S data data_pd r Hnorm) in Hr.
  destruct Hr as [record [Hnth [Hcol Hr]]].
  destruct (raw_mtg_card_colors record) as [colours |] eqn:Hc;
    [| discriminate Hcol].
  assert (Hup : mtg_card_colors r = Some (upper colours)).
  { rewrite Hr. cbn [mtg_card_colors finish_row snd]. now rewrite Hc. }
  assert (Hasc : is_ascii colours = true).
  { apply (ascii_colours_In data record colours Hascii); [| exact Hc].
    now apply (nth_error_In data (index r)). }
  exists record, colours. split; [exact Hnth |]. split; [exact Hc |].
  split; [exact Hasc |]. split; [exact Hup |].
  split; [now apply upper_is_ascii |].
  split; [apply upper_idempotent |]. split; [apply upper_length |].
  intros r' Hr' [record' [colours' [Hnth' [Hc' Heq]]]].
  apply (normalize_rows S data data_pd r' Hnorm) in Hr'.
  destruct Hr' as [record'' [Hnth'' [_ Hr']]].
  rewrite Hnth' in Hnth''. injection Hnth'' as <-.
  unfold category_of. rewrite Hup, Hr'.
  cbn [mtg_card_colors finish_row snd]. rewrite Hc'. cbn [option_map].
  now rewrite Heq.
Qed.

Lemma colours_are_upper_cased_witness :
  exists data_pd : list Row,
    normalize stable_argsort
      [card 1 (Some 500) (Some false) (Some "w"%string);
       card 2 (Some 400) (Some false) (Some "W"%string);
       card 3 (Some 300) (Some false) (Some "Wu"%string)] = inr data_pd
    /\ map mtg_card_colors data_pd
       = [Some "W"; Some "W"; Some "WU"]%string
    /\ forall r : Row,
         In r data_pd ->
         exists (record : RawRecord) (colours : string),
           nth_error
             [card 1 (Some 500) (Some false) (Some "w"%string);
              card 2 (Some 400) (Some false) (Some "W"%string);
              card 3 (Some 300) (Some false) (Some "Wu"%string)] (index r)
           = Some record
           /\ raw_mtg_card_colors record = Some colours
           /\ is_ascii colours = true
           /\ mtg_card_colors r = Some (upper colours)
           /\ is_ascii (upper colours) = true
           /\ upper (upper colours) = upper colours
           /\ String.length (upper colours) = String.length colours
           /\ forall r' : Row,
                In r' data_pd ->
                (exists (record' : RawRecord) (colours' : string),
                    nth_error
                      [card 1 (Some 500) (Some false) (Some "w"%string);
                       card 2 (Some 400) (Some false) (Some "W"%string);
                       card 3 (Some 300) (Some false) (Some "Wu"%string)]
                      (index r') = Some record'
                    /\ raw_mtg_card_colors record' = Some colours'
                    /\ upper colours' = upper colours) ->
                category_of r' = category_of r.
Proof.
  eexists. split; [vm_compute; reflexivity |].
  split; [reflexivity |].
  apply (colours_are_upper_cased stable_argsort
           [card 1 (Some 500) (Some false) (Some "w"%string);
            card 2 (Some 400) (Some false) (Some "W"%string);
            card 3 (Some 300) (Some false) (Some "Wu"%string)]).
  - vm_compute. reflexivity.
  - reflexivity.
Defined.

(** ** The configured colours and the threshold *)

(** X16: [get_config] reads the colour list as a set: two lists with
    the same members, in any order and with any repetitions, load the
    same colours. *)
Theorem get_config_reads_the_codes_as_a_set (token : string)
    (price_thresh : Z) (codes codes' : list string) :
  (forall s : string, In s codes <-> In s codes') ->
  colors
    (get_config
       {| yaml_ct_token := token; yaml_price_cents_threshold := price_thresh;
          yaml_colors := codes |})
  = colors
      (get_config
         {| yaml_ct_token := token;
            yaml_price_cents_threshold := price_thresh;
            yaml_colors := codes' |}).
Proof.
  intros H. unfold get_config. cbn [colors yaml_colors].
  apply filter_ext. intros color.
  destruct (str_in (code color) codes) eqn:E.
  - symmetry. apply str_in_In, H, str_in_In, E.
  - destruct (str_in (code color) codes') eqn:E'; [| reflexivity].
    apply str_in_In, H, str_in_In in E'. congruence.
Qed.

Lemma get_config_reads_the_codes_as_a_set_witness :
  colors
    (get_config
       {| yaml_ct_token := "token"; yaml_price_cents_threshold := 0;
          yaml_colors := ["W"; "M"; "W"]%string |})
  = colors
      (get_config
         {| yaml_ct_token := "token"; yaml_price_cents_threshold := 0;
            yaml_colors := ["M"; "W"]%string |}).
Proof.
  apply (get_config_reads_the_codes_as_a_set "token" 0
           ["W"; "M"; "W"]%string ["M"; "W"]%string).
  intros s. cbn. tauto.
Defined.

Lemma selects_lower_threshold (color : Color) (low high : Z) (r : Row) :
  low <= high ->
  selects color high r = true -> selects color low r = true.
Proof.
  intros Hle. unfold selects, price_ge.
  destruct (price_cents r) as [p |];
    [| now rewrite !andb_false_r; destruct (is_MULTICOLOR color)].
  destruct (is_MULTICOLOR color); rewrite !andb_true_iff, !Z.leb_le;
    intros [Hc Hp]; (split; [exact Hc | lia]).
Qed.

Lemma filter_filter_implied {A : Type} (f g : A -> bool) (l : list A) :
  (forall x, f x = true -> g x = true) ->
  List.filter f (List.filter g l) = List.filter f l.
Proof.
  intros H. induction l as [| x l IH]; [reflexivity |].
  cbn [List.filter]. destruct (g x) eqn:Hg.
  - cbn [List.filter]. now rewrite IH.
  - rewrite IH. destruct (f x) eqn:Hf; [| reflexivity].
    apply H in Hf. congruence.
Qed.

(** X17: raising the threshold only removes rows from a query: the
    query at the higher threshold is the one at the lower threshold
    queried again, so it is a sub-sequence of it in the same order, and a
    row whose price equals the threshold is still selected. *)
Theorem higher_threshold_selects_fewer_rows (color : Color) (low high : Z)
    (data_pd : list Row) :
  low <= high ->
  query color high (query color low data_pd) = query color high data_pd
  /\ sublist (query color high data_pd) (query color low data_pd)
  /\ (length (query color high data_pd)
      <= length (query color low data_pd))%nat
  /\ forall r : Row,
       In r (query color low data_pd) ->
       price_cents r = Some high ->
       In r (query color high data_pd).
Proof.
  intros Hle.
  assert (Heq : query color high (query color low data_pd)
                = query color high data_pd).
  { unfold query. apply filter_filter_implied.
    intros r. now apply selects_lower_threshold. }
  split; [exact Heq |]. split; [| split].
  - rewrite <- Heq. apply query_sublist.
  - rewrite <- Heq. unfold query at 1. apply filter_length_le.
  - intros r Hr Hp. unfold query in *. apply filter_In in Hr.
    destruct Hr as [Hin Hsel]. apply filter_In. split; [exact Hin |].
    unfold selects, price_ge in *. rewrite Hp in *.
    rewrite Z.leb_refl.
    destruct (is_MULTICOLOR color); apply andb_true_iff in Hsel;
      apply andb_true_iff; (split; [apply Hsel | reflexivity]).
Qed.

Lemma higher_threshold_selects_fewer_rows_witness :
  query BLUE 300 (query BLUE 100 (map finish_row (json_normalize four_cards)))
  = query BLUE 300 (map finish_row (json_normalize four_cards))
  /\ sublist
       (query BLUE 300 (map finish_row (json_normalize four_cards)))
       (query BLUE 100 (map finish_row (json_normalize four_cards)))
  /\ (length (query BLUE 300 (map finish_row (json_normalize four_cards)))
      <= length
           (query BLUE 100 (map finish_row (json_normalize four_cards))))%nat
  /\ forall r : Row,
       In r (query BLUE 100 (map finish_row (json_normalize four_cards))) ->
       price_cents r = Some 300 ->
       In r (query BLUE 300 (map finish_row (json_normalize four_cards))).
Proof.
  apply (higher_threshold_selects_fewer_rows BLUE 100 300
           (map finish_row (json_normalize four_cards))).
  lia.
Defined.

(** ** The codes of the enumeration *)

(** X18: [Color.all] lists the codes of the members in definition
    order: M, W, U, B, R, G, C, L, and the same without its head M when
    [exclude_multi] is set.  No code is repeated, a code is in the list
    exactly when it is the code of a member that is not left out, and no
    two members share a code. *)
Theorem Color_all_lists_each_code_once (exclude_multi : bool) :
  Color_all exclude_multi
  = (if exclude_multi then [] else ["M"%string])
      ++ ["W"; "U"; "B"; "R"; "G"; "C"; "L"]%string
  /\ Color_all false = map code list_Color
  /\ Color_all true = tl (Color_all false)
  /\ List.NoDup (Color_all exclude_multi)
  /\ (forall s : string,
         In s (Color_all exclude_multi) <->
         exists color : Color,
           code color = s
           /\ (exclude_multi = true -> color <> MULTICOLOR))
  /\ (forall c1 c2 : Color, code c1 = code c2 -> c1 = c2).
Proof.
  split; [now destruct exclude_multi |].
  split; [reflexivity |]. split; [reflexivity |].
  split; [| split].
  - destruct exclude_multi; cbv [Color_all list_Color map List.filter
      is_MULTICOLOR negb andb code];
      repeat (constructor; [cbn; intuition discriminate |]); constructor.
  - intros s. unfold Color_all. rewrite in_map_iff. split.
    + intros [color [Hcode Hin]]. apply filter_In in Hin.
      destruct Hin as [_ Hkeep]. exists color. split; [exact Hcode |].
      intros -> ->. discriminate Hkeep.
    + intros [color [Hcode Hkeep]]. exists color. split; [exact Hcode |].
      apply filter_In. split; [apply list_Color_complete |].
      destruct exclude_multi; [| reflexivity].
      destruct color; try reflexivity. now destruct Hkeep.
  - apply code_inj.
Qed.

(** ** The expansions shown *)

(** X19: in a run that completes, the expansion shown in a printed row
    is the name of an expansion of game 1 from the fetched list: the last
    one in the list, among those of game 1, to have the id that the
    blueprint request of the row returned. *)
Theorem printed_expansions_come_from_game_one (S : Argsort)
    (server : Server) (config_dict : ConfigDict) (st : state)
    (expansions : list Expansion) :
  main S server config_dict start = (inr tt, st) ->
  expansions_json server = Some expansions ->
  forall (t : Table) (re : Row * string),
    In t (tables st) ->
    In re (rows t) ->
    exists exp : Expansion,
      List.find
        (fun exp' =>
           (exp_id exp' =? exp_id exp) && (exp_game_id exp' =? 1))
        (rev expansions) = Some exp
      /\ In exp expansions
      /\ exp_game_id exp = 1
      /\ blueprint_json server (blueprint_id (fst re)) = Some (exp_id exp)
      /\ snd re = exp_name exp.
Proof.
  intros Hmain Hexp t re Ht Hre.
  apply main_tables in Hmain.
  destruct Hmain as [expansions' [data [data_pd H]]].
  destruct H as [Hexp' [_ [_ [Hts _]]]].
  rewrite Hexp in Hexp'. injection Hexp' as <-.
  apply (Forall2_table_in _ _ _ _ _ _ t) in Hts; [| exact Ht].
  destruct Hts as [_ [_ [_ [_ [_ Hall]]]]].
  rewrite List.Forall_forall in Hall.
  destruct (Hall re Hre) as [eid [exp [Hid [Hlook Hname]]]].
  rewrite expansions_dict_lookup in Hlook.
  destruct (List.find _ (rev expansions)) as [found |] eqn:Hfind;
    [| discriminate Hlook].
  injection Hlook as <-.
  pose proof Hfind as Hsome.
  apply find_some in Hsome. destruct Hsome as [Hin Hp].
  apply in_rev in Hin. apply andb_true_iff in Hp.
  destruct Hp as [Hfid Hgame]. apply Z.eqb_eq in Hfid, Hgame.
  exists found. subst eid. repeat split; assumption.
Qed.

Lemma printed_expansions_come_from_game_one_witness :
  exists st : state,
    main stable_argsort
      {| expansions_json :=
           Some [{| exp_id := 7; exp_name := "Alpha"; exp_code := "lea";
                    exp_game_id := 1 |};
                 {| exp_id := 8; exp_name := "Base Set"; exp_code := "bs";
                    exp_game_id := 5 |};
                 {| exp_id := 7; exp_name := "Limited Edition Alpha";
                    exp_code := "lea"; exp_game_id := 1 |}];
         collection_json := Some four_cards;
         blueprint_json := fun _ => Some 7 |}
      (config_yaml 0 ["W"; "U"]%string) start = (inr tt, st)
    /\ map (fun t => map snd (rows t)) (tables st)
       = [["Limited Edition Alpha"];
          ["Limited Edition Alpha"; "Limited Edition Alpha";
           "Limited Edition Alpha"]]%string
    /\ forall (t : Table) (re : Row * string),
         In t (tables st) ->
         In re (rows t) ->
         exists exp : Expansion,
           List.find
             (fun exp' =>
                (exp_id exp' =? exp_id exp) && (exp_game_id exp' =? 1))
             (rev
                [{| exp_id := 7; exp_name := "Alpha"; exp_code := "lea";
                    exp_game_id := 1 |};
                 {| exp_id := 8; exp_name := "Base Set"; exp_code := "bs";
                    exp_game_id := 5 |};
                 {| exp_id := 7; exp_name := "Limited Edition Alpha";
                    exp_code := "lea"; exp_game_id := 1 |}]) = Some exp
           /\ In exp
                [{| exp_id := 7; exp_name := "Alpha"; exp_code := "lea";
                    exp_game_id := 1 |};
                 {| exp_id := 8; exp_name := "Base Set"; exp_code := "bs";
                    exp_game_id := 5 |};
                 {| exp_id := 7; exp_name := "Limited Edition Alpha";
                    exp_code := "lea"; exp_game_id := 1 |}]
           /\ exp_game_id exp = 1
           /\ (fun _ : Z => Some 7) (blueprint_id (fst re))
              = Some (exp_id exp)
           /\ snd re = exp_name exp.
Proof.
  eexists. split; [vm_compute; reflexivity |].
  split; [reflexivity |].
  apply (printed_expansions_come_from_game_one stable_argsort
           {| expansions_json :=
                Some [{| exp_id := 7; exp_name := "Alpha"; exp_code := "lea";
                         exp_game_id := 1 |};
                      {| exp_id := 8; exp_name := "Base Set";
                         exp_code := "bs"; exp_game_id := 5 |};
                      {| exp_id := 7; exp_name := "Limited Edition Alpha";
                         exp_code := "lea"; exp_game_id := 1 |}];
              collection_json := Some four_cards;
              blueprint_json := fun _ => Some 7 |}
           (config_yaml 0 ["W"; "U"]%string)).
  - vm_compute. reflexivity.
  - reflexivity.
Defined.

(** ** The layout of the output *)

(** X20: a run that completes prints, in this order, the line counting
    all the records of the export (also those dropped later), one table
    for every enabled colour, and the line of the totals.  A colour for
    which no row qualifies still gets its table, with no row and a
    caption of 0 items and 0 cents; there are at most eight tables. *)
Theorem one_table_per_enabled_colour (S : Argsort) (server : Server)
    (config_dict : ConfigDict) (st : state) (data : list RawRecord) :
  main S server config_dict start = (inr tt, st) ->
  collection_json server = Some data ->
  (exists total_items total_value,
      console st
      = Reading (length data) :: map Printed (tables st)
          ++ [Total total_items total_value])
  /\ length (tables st) = length (colors (get_config config_dict))
  /\ (length (tables st) <= 8)%nat
  /\ forall t : Table,
       In t (tables st) ->
       rows t = [] -> caption_items t = 0%nat /\ caption_cents t = 0.
Proof.
  intros Hmain Hdata.
  pose proof (main_titles S server config_dict st Hmain) as Htitles.
  apply main_tables in Hmain.
  destruct Hmain as [expansions [data' [data_pd H]]].
  destruct H as [_ [Hdata' [_ [Hts [_ Hcon]]]]].
  rewrite Hdata in Hdata'. injection Hdata' as <-.
  assert (Hlen : length (tables st) = length (colors (get_config config_dict)))
    by now rewrite <- Htitles, length_map.
  split; [eexists; eexists; exact Hcon |]. split; [exact Hlen |]. split.
  - rewrite Hlen.
    change 8%nat with (length list_Color).
    apply NoDup_incl_length.
    + unfold get_config. cbn [colors].
      apply List.NoDup_filter, list_Color_NoDup.
    + intros color _. apply list_Color_complete.
  - intros t Ht Hrows.
    apply (Forall2_table_in _ _ _ _ _ _ t) in Hts; [| exact Ht].
    destruct Hts as [_ [_ [_ [Hitems [Hcents _]]]]].
    rewrite Hitems, Hcents, Hrows. split; reflexivity.
Qed.

Lemma one_table_per_enabled_colour_witness :
  exists st : state,
    main stable_argsort (cardtrader four_cards)
      (config_yaml 0 ["W"; "B"; "U"]%string) start = (inr tt, st)
    /\ map (fun t => (title_color t, caption_items t)) (tables st)
       = [(WHITE, 1%nat); (BLUE, 3%nat); (BLACK, 0%nat)]
    /\ (exists total_items total_value,
           console st
           = Reading (length four_cards) :: map Printed (tables st)
               ++ [Total total_items total_value])
    /\ length (tables st)
       = length (colors (get_config (config_yaml 0 ["W"; "B"; "U"]%string)))
    /\ (length (tables st) <= 8)%nat
    /\ forall t : Table,
         In t (tables st) ->
         rows t = [] -> caption_items t = 0%nat /\ caption_cents t = 0.
Proof.
  eexists. split; [vm_compute; reflexivity |].
  split; [reflexivity |].
  apply (one_table_per_enabled_colour stable_argsort (cardtrader four_cards)
           (config_yaml 0 ["W"; "B"; "U"]%string)).
  - vm_compute. reflexivity.
  - reflexivity.
Defined.
